(** * ping_tracker: the host-check pipeline of [poll.py]

    A shallow embedding of [check_hosts] and of the SQLite branch of the
    script's main block, with the properties the specification states
    about them.

    Conventions of the embedding.
    - Text is [string]: the decoded standard output of [fping] and host
      names are sequences of one-byte characters.
    - The outside world is an explicit input ([world]): what
      [subprocess.run] answers to a command line ([which fping] and the
      probe itself), and the integer the clock expression
      [int(pd.Timestamp.now(tz='UTC').value / 1e9)] evaluates to.
    - [warnings.warn] appends to a log that is threaded through the
      function; a raised exception ends the computation and keeps the log.
    - A [pd.DataFrame] is the list of its rows, in order, together with the
      information whether the [ping] column exists.
    - Latencies are the exact rationals denoted by the captured literals;
      rounding to binary64 is outside the model. *)

From Stdlib Require Import ZArith QArith List String Ascii Bool Lia.
From Stdlib Require Import Qround DecimalString Permutation.
Import ListNotations.

Local Open Scope Z_scope.
Local Open Scope string_scope.
Local Open Scope list_scope.

Set Implicit Arguments.

(* ================================================================== *)
(** ** Regular expressions, as far as [check_hosts] uses them *)

Module Re.

(** Character classes of the two patterns: [.], [[a-z]] and [\d]. *)
Inductive cclass : Set := Dot | Lower | Digit.

Definition newline : ascii := ascii_of_nat 10.

Definition is_lower (a : ascii) : bool :=
  let n := nat_of_ascii a in (97 <=? n)%nat && (n <=? 122)%nat.

Definition is_digit (a : ascii) : bool :=
  let n := nat_of_ascii a in (48 <=? n)%nat && (n <=? 57)%nat.

Definition in_class (c : cclass) (a : ascii) : bool :=
  match c with
  | Dot => negb (Ascii.eqb a newline)
  | Lower => is_lower a
  | Digit => is_digit a
  end.

(** The syntax: literals, one character of a class, a lazy star and a
    greedy plus over a class, concatenation, a numbered capturing group
    and a greedy optional non-capturing group. *)
Inductive regex : Set :=
| Lit (s : string)
| One (c : cclass)
| StarLazy (c : cclass)
| PlusGreedy (c : cclass)
| Cat (r1 r2 : regex)
| Group (n : nat) (r : regex)
| Opt (r : regex).

(** Captures: group number to matched text; a group that took no part in
    the match reads as the empty string, as [re.findall] reports it. *)
Definition captures := list (nat * string).

Fixpoint group (n : nat) (caps : captures) : string :=
  match caps with
  | [] => ""
  | (m, s) :: rest => if Nat.eqb n m then s else group n rest
  end.

Fixpoint strip_prefix (p s : string) : option string :=
  match p, s with
  | EmptyString, _ => Some s
  | String a p', String b s' => if Ascii.eqb a b then strip_prefix p' s' else None
  | String _ _, EmptyString => None
  end.

Fixpoint take (n : nat) (s : string) : string :=
  match n, s with
  | S n', String a s' => String a (take n' s')
  | _, _ => EmptyString
  end.

Section Backtracking.
Variable A : Type.

(** Continuation: the rest of the pattern, run on the rest of the text. *)
Definition cont := string -> captures -> option A.

(** [c*?]: first try to stop here, then take one more character. *)
Fixpoint lazy_star (c : cclass) (k : cont) (s : string) (caps : captures)
  : option A :=
  match k s caps with
  | Some r => Some r
  | None =>
      match s with
      | String a s' => if in_class c a then lazy_star c k s' caps else None
      | EmptyString => None
      end
  end.

(** [c*], greedy: first take one more character, then try to stop. *)
Fixpoint greedy_star (c : cclass) (k : cont) (s : string) (caps : captures)
  : option A :=
  match s with
  | String a s' =>
      if in_class c a then
        match greedy_star c k s' caps with
        | Some r => Some r
        | None => k s caps
        end
      else k s caps
  | EmptyString => k s caps
  end.

Fixpoint exec (r : regex) (s : string) (caps : captures) (k : cont)
  : option A :=
  match r with
  | Lit l =>
      match strip_prefix l s with
      | Some s' => k s' caps
      | None => None
      end
  | One c =>
      match s with
      | String a s' => if in_class c a then k s' caps else None
      | EmptyString => None
      end
  | StarLazy c => lazy_star c k s caps
  | PlusGreedy c =>
      match s with
      | String a s' => if in_class c a then greedy_star c k s' caps else None
      | EmptyString => None
      end
  | Cat r1 r2 => exec r1 s caps (fun s' caps' => exec r2 s' caps' k)
  | Group n r' =>
      exec r' s caps
        (fun s' caps' =>
           k s' ((n, take (String.length s - String.length s') s) :: caps'))
  | Opt r' =>
      match exec r' s caps k with
      | Some x => Some x
      | None => k s caps
      end
  end.
End Backtracking.

(** One match attempt anchored at the start of [s]: the text left after
    the match, and the groups. *)
Definition match_here (p : regex) (s : string) : option (string * captures) :=
  exec p s [] (fun rest caps => Some (rest, caps)).

(** [re.findall]: the non-overlapping matches from left to right.  [skip]
    counts the characters of the last match that are still to be passed
    over.  The patterns of [check_hosts] never match the empty string, so
    the treatment of empty matches plays no role. *)
Fixpoint scan (p : regex) (skip : nat) (s : string) : list captures :=
  match s with
  | EmptyString =>
      match skip with
      | O => match match_here p s with
             | Some (_, caps) => [caps]
             | None => []
             end
      | S _ => []
      end
  | String _ s' =>
      match skip with
      | S n => scan p n s'
      | O =>
          match match_here p s with
          | Some (rest, caps) =>
              caps :: scan p (String.length s - String.length rest - 1) s'
          | None => scan p 0 s'
          end
      end
  end.

Definition findall (p : regex) (s : string) : list captures := scan p 0 s.

End Re.

(* ================================================================== *)
(** ** Exceptions, warnings and the monad that carries them *)

(** The exceptions that can leave [check_hosts].  [KeyError] is what the
    dictionary lookup in [FPingException.__init__] raises, [ValueError]
    what [astype('float')] raises on text that is no number. *)
Inductive exn : Set :=
| FPingNotFound
| FPingException (exit_code : Z) (message : string)
| KeyError (key : Z)
| ValueError (text : string).

(** The three [warnings.warn] calls of [check_hosts], with the number each
    message is formatted with. *)
Inductive warning : Set :=
| DuplicatedHosts (n_dup : Z)
| MutuallyExclusive
| NoResult (n_err : Z).

Inductive result (A : Type) : Type :=
| Ok (a : A)
| Raise (e : exn).
Arguments Ok {A} a.
Arguments Raise {A} e.

(** A computation: the warnings it emitted, in order, and how it ended. *)
Definition M (A : Type) : Type := (list warning * result A)%type.

Definition ret {A} (a : A) : M A := ([], Ok a).
Definition warn (w : warning) : M unit := ([w], Ok tt).
Definition raise {A} (e : exn) : M A := ([], Raise e).

Definition bind {A B} (m : M A) (f : A -> M B) : M B :=
  match m with
  | (ws, Ok a) => let (ws', r) := f a in (ws ++ ws', r)
  | (ws, Raise e) => (ws, Raise e)
  end.

Notation "x <- m ;; k" := (bind m (fun x => k))
  (at level 61, m at next level, right associativity).
Notation "m ;;; k" := (bind m (fun _ => k))
  (at level 61, right associativity).

Definition when (b : bool) (m : M unit) : M unit := if b then m else ret tt.

Definition emitted {A} (m : M A) : list warning := fst m.
Definition outcome {A} (m : M A) : result A := snd m.

(** The class attribute [FPingException.ret_codes]. *)
Definition ret_codes : list (Z * string) :=
  [ (0, "all hosts are reachable");
    (1, "some hosts are unreachable");
    (2, "some IP addresses or hostnames were not found");
    (3, "invalid command line arguments");
    (4, "system call failure") ].

Fixpoint dict_get (k : Z) (d : list (Z * string)) : option string :=
  match d with
  | [] => None
  | (k', v) :: d' => if Z.eqb k k' then Some v else dict_get k d'
  end.

(** [FPingException(exit_code)]: the constructor indexes [ret_codes], so
    building the exception can itself raise. *)
Definition FPingException_init (exit_code : Z) : M exn :=
  match dict_get exit_code ret_codes with
  | Some message => ret (FPingException exit_code message)
  | None => raise (KeyError exit_code)
  end.

(** The text the exception is created with. *)
Definition exn_str (e : exn) : string :=
  match e with
  | FPingException _ message => "fping returned with an error: " ++ message
  | _ => ""
  end.

(* ================================================================== *)
(** ** The data of one check *)

(** A cell of the [reachable] column: a boolean after [replace], the text
    of the second group where [replace] found neither word, [pd.NA] in a
    placeholder row. *)
Inductive reach : Set :=
| RBool (b : bool)
| RText (s : string)
| RNA.

(** A cell of the [ping] column: a number or [NaN]. *)
Inductive latency : Set :=
| LNaN
| LVal (q : Q).

Record row : Set := mkRow {
  machine : string;
  reachable : reach;
  ts : Z;
  ping : latency
}.

(** [has_ping] tells whether the frame has a [ping] column; without it the
    [ping] field of the rows is [LNaN] and is not read. *)
Record DataFrame : Set := mkDF {
  has_ping : bool;
  rows : list row
}.

Definition index (df : DataFrame) : list string := map machine (rows df).
Definition len_df (df : DataFrame) : Z := Z.of_nat (List.length (rows df)).

(** Keyword arguments of [check_hosts] and their defaults. *)
Record kwargs : Set := mkKw {
  timeout_ms : option Z;
  reverse_lookup : bool;
  add_elapsed : bool;
  ipv4_only : bool;
  include_failed_dns : bool
}.

Definition check_hosts_defaults : kwargs :=
  {| timeout_ms := Some 50;
     reverse_lookup := false;
     add_elapsed := false;
     ipv4_only := true;
     include_failed_dns := false |}.

(** What [subprocess.run(..., capture_output=True)] hands back, with the
    standard output already decoded. *)
Record CompletedProcess : Set := mkCP {
  returncode : Z;
  stdout : string
}.

(** The world outside the function. *)
Record world : Type := mkWorld {
  run : list string -> CompletedProcess;
  clock : Z
}.

(* ================================================================== *)
(** ** Parsing *)

Import Re.

(** [r'(.*?) is ([a-z]+)'] *)
Definition pattern_base : regex :=
  Cat (Group 1 (StarLazy Dot)) (Cat (Lit " is ") (Group 2 (PlusGreedy Lower))).

(** [r'(?: \((\d+.\d+) ms\))?'] *)
Definition pattern_elapsed : regex :=
  Opt (Cat (Lit " (")
        (Cat (Group 3 (Cat (PlusGreedy Digit) (Cat (One Dot) (PlusGreedy Digit))))
             (Lit " ms)"))).

Definition pattern (add_elapsed : bool) : regex :=
  if add_elapsed then Cat pattern_base pattern_elapsed else pattern_base.

(** [df['reachable'].replace({'alive': True, 'unreachable': False})] on one
    cell. *)
Definition replace_reachable (tok : string) : reach :=
  if String.eqb tok "alive" then RBool true
  else if String.eqb tok "unreachable" then RBool false
  else RText tok.

Fixpoint span_digits (s : string) : string * string :=
  match s with
  | String a s' =>
      if is_digit a then let (d, r) := span_digits s' in (String a d, r)
      else (EmptyString, s)
  | EmptyString => (EmptyString, EmptyString)
  end.

Fixpoint digits_value (acc : Z) (s : string) : Z :=
  match s with
  | String a s' => digits_value (10 * acc + (Z.of_nat (nat_of_ascii a) - 48)) s'
  | EmptyString => acc
  end.

Definition pow10 (n : nat) : Z := 10 ^ Z.of_nat n.

(** [float(tok)] for the texts the third group can hold: digits, one
    character, digits.  The character may be a digit, the decimal point,
    an exponent mark or an underscore; anything else is no number.  The
    result is the number the text denotes; the conversion itself returns
    the binary64 nearest to it, so the two agree exactly only on numbers
    binary64 holds ([binary64_exact]), and otherwise up to that
    rounding. *)
Definition float_of (tok : string) : option Q :=
  let (d1, rest) := span_digits tok in
  match d1, rest with
  | EmptyString, _ => None
  | _, EmptyString => Some (digits_value 0 d1 # 1)
  | _, String c d2 =>
      let (d2', tail) := span_digits d2 in
      match d2', tail with
      | String _ _, EmptyString =>
          let k := String.length d2 in
          if Ascii.eqb c "."%char then
            Some (digits_value (digits_value 0 d1) d2 # Z.to_pos (pow10 k))
          else if Ascii.eqb c "e"%char || Ascii.eqb c "E"%char then
            Some (digits_value 0 d1 * 10 ^ digits_value 0 d2 # 1)
          else if Ascii.eqb c "_"%char then
            Some (digits_value (digits_value 0 d1) d2 # 1)
          else None
      | _, _ => None
      end
  end.

(** [df['ping'].replace('', np.nan).astype('float')] on one cell. *)
Definition ping_cell (tok : string) : M latency :=
  match tok with
  | EmptyString => ret LNaN
  | _ => match float_of tok with
         | Some q => ret (LVal q)
         | None => raise (ValueError tok)
         end
  end.

Fixpoint mapM {A B} (f : A -> M B) (l : list A) : M (list B) :=
  match l with
  | [] => ret []
  | a :: l' => b <- f a ;; bs <- mapM f l' ;; ret (b :: bs)
  end.

(** The rows of [df] after lines 98 to 102: one per match, in order. *)
Definition row_of (now : Z) (caps : captures) : row :=
  {| machine := group 1 caps;
     reachable := replace_reachable (group 2 caps);
     ts := now;
     ping := LNaN |}.

Definition set_ping (r : row) (l : latency) : row :=
  {| machine := machine r; reachable := reachable r; ts := ts r; ping := l |}.

(** [stati] of line 94. *)
Definition stati (add_elapsed : bool) (out : string) : list captures :=
  findall (pattern add_elapsed) out.

(** Lines 95 to 104. *)
Definition parse_frame (add_elapsed : bool) (now : Z) (out : string)
  : M DataFrame :=
  let st := stati add_elapsed out in
  let rs := map (row_of now) st in
  if add_elapsed then
    ps <- mapM ping_cell (map (group 3) st) ;;
    ret (mkDF true (map (fun rp => set_ping (fst rp) (snd rp)) (combine rs ps)))
  else ret (mkDF false rs).


(* ================================================================== *)
(** ** [check_hosts] *)

Definition len (l : list string) : Z := Z.of_nat (List.length l).

(** [len(set(hosts))] *)
Definition len_set (l : list string) : Z :=
  Z.of_nat (List.length (nodup string_dec l)).

Definition mem (x : string) (l : list string) : bool :=
  existsb (String.eqb x) l.

(** [f'{z:d}'] *)
Definition fmt_d (z : Z) : string := NilEmpty.string_of_int (Z.to_int z).

(** Lines 75 to 85: the command line without the hosts. *)
Definition build_cmd (kw : kwargs) : list string :=
  ["fping"]
  ++ match timeout_ms kw with
     | Some t => [("--timeout=" ++ fmt_d t)%string]
     | None => []
     end
  ++ (if reverse_lookup kw then ["-d"] else [])
  ++ (if add_elapsed kw then ["-e"] else [])
  ++ (if ipv4_only kw then ["--ipv4"] else []).

(** Line 110. *)
Definition missing_hosts (hosts : list string) (df : DataFrame) : list string :=
  filter (fun x => negb (mem x (index df))) hosts.

(** Lines 111 to 113: a placeholder row. *)
Definition missing_row (now : Z) (x : string) : row :=
  {| machine := x; reachable := RNA; ts := now; ping := LNaN |}.

(** [pd.concat((df, missing_df))] *)
Definition concat (df : DataFrame) (extra : list row) : DataFrame :=
  mkDF (has_ping df) (rows df ++ extra).

(** Lines 105 to 117. *)
Definition reconcile (hosts : list string) (kw : kwargs) (now : Z)
    (df : DataFrame) : M DataFrame :=
  let n_err := len hosts - len_df df in
  if negb (n_err =? 0)%Z then
    let conflict := reverse_lookup kw && include_failed_dns kw in
    when conflict (warn MutuallyExclusive) ;;;
    let include_failed_dns' :=
      if conflict then false else include_failed_dns kw in
    if include_failed_dns' then
      ret (concat df (map (missing_row now) (missing_hosts hosts df)))
    else
      warn (NoResult n_err) ;;; ret df
  else ret df.

(** Lines 89 and 90. *)
Definition check_status (rc : Z) : M unit :=
  when (rc >=? 3)%Z (e <- FPingException_init rc ;; raise e).

Definition check_hosts (w : world) (hosts : list string) (kw : kwargs)
  : M DataFrame :=
  let n_dup := len hosts - len_set hosts in
  when (n_dup >? 0)%Z (warn (DuplicatedHosts n_dup)) ;;;
  let cmd := build_cmd kw in
  if negb (returncode (run w ["which"; "fping"]) =? 0)%Z then
    raise FPingNotFound
  else
    let call := run w (cmd ++ hosts) in
    check_status (returncode call) ;;;
    let now := clock w in
    df <- parse_frame (add_elapsed kw) now (stdout call) ;;
    reconcile hosts kw now df.

(* ================================================================== *)
(** ** The main block: arguments and the SQLite branch *)

(** The [argparse] namespace, as far as the call of [check_hosts] and the
    store read it.  The [store_true] flags are [false] when not given. *)
Record Namespace : Set := mkArgs {
  arg_timeout : Z;
  arg_elapsed : bool;
  arg_exclude_failed : bool;
  arg_reverse : bool;
  arg_ipv6 : bool
}.

(** The namespace of an invocation that gives none of these options. *)
Definition no_options : Namespace :=
  {| arg_timeout := 50;
     arg_elapsed := false;
     arg_exclude_failed := false;
     arg_reverse := false;
     arg_ipv6 := false |}.

(** Lines 157 and 158: the keyword arguments of the call. *)
Definition main_kwargs (args : Namespace) : kwargs :=
  {| timeout_ms := Some (arg_timeout args);
     reverse_lookup := arg_reverse args;
     add_elapsed := arg_elapsed args;
     ipv4_only := negb (arg_ipv6 args);
     include_failed_dns := negb (arg_exclude_failed args) |}.

Definition main_check (w : world) (hosts : list string) (args : Namespace)
  : M DataFrame :=
  check_hosts w hosts (main_kwargs args).

(** A row of the [hosts] table, as far as it is read. *)
Record host_record : Set := mkHost {
  id : Z;
  hostname : string
}.

(** Values SQLite stores. *)
Inductive sqlval : Set :=
| SNull
| SInt (z : Z)
| SReal (q : Q)
| SText (s : string).

(** A row of table [ts]. *)
Record ts_entry : Set := mkEntry {
  timestamp : Z;
  host_id : Z;
  online : sqlval;
  latency_ms : sqlval
}.

(** How [to_sql] binds a [reachable] cell: booleans as integers, [pd.NA]
    as [None], text as text. *)
Definition online_of (r : reach) : sqlval :=
  match r with
  | RBool true => SInt 1
  | RBool false => SInt 0
  | RNA => SNull
  | RText s => SText s
  end.

Definition latency_of (l : latency) : sqlval :=
  match l with
  | LNaN => SNull
  | LVal q => SReal q
  end.

(** Line 175 for one result: the left join on [machine] = [hostname]
    followed by [dropna(subset='id')]; lines 176 to 178 rename the columns
    and fill [latency_ms] when the frame has no [ping]. *)
Definition join_row (has_ping : bool) (hosts_db : list host_record) (r : row)
  : list ts_entry :=
  map (fun h => {| timestamp := ts r;
                   host_id := id h;
                   online := online_of (reachable r);
                   latency_ms := if has_ping then latency_of (ping r)
                                 else SNull |})
      (filter (fun h => String.eqb (hostname h) (machine r)) hosts_db).

Definition df_sqlite (df : DataFrame) (hosts_db : list host_record)
  : list ts_entry :=
  flat_map (join_row (has_ping df) hosts_db) (rows df).

(** Column [online] is declared [INTEGER]: a real without fractional part
    is stored as the integer.  The text cells this program can produce are
    words of lowercase letters, which are no numbers and stay text. *)
Definition integer_affinity (v : sqlval) : sqlval :=
  match v with
  | SReal q => if Qeq_bool q (inject_Z (Qfloor q)) then SInt (Qfloor q) else v
  | _ => v
  end.

(** The [CHECK (online IN (0, 1))] of [ts_schema].  A check passes unless
    it evaluates to false, so [NULL] passes; text and other numbers are
    neither 0 nor 1. *)
Definition check_online (v : sqlval) : bool :=
  match v with
  | SNull => true
  | SInt z => (z =? 0)%Z || (z =? 1)%Z
  | SReal _ => false
  | SText _ => false
  end.

Definition store_entry (e : ts_entry) : ts_entry :=
  {| timestamp := timestamp e;
     host_id := host_id e;
     online := integer_affinity (online e);
     latency_ms := latency_ms e |}.

(** A table named [ts] in the database file: which rows its declared
    constraints let in, given the rows of [hosts]; how it keeps a row in
    its columns; the rows it holds.  The program never looks at the
    schema of a table it finds, so all of this is up to the file. *)
Record ts_table : Type := mkTs {
  admits : list host_record -> ts_entry -> bool;
  stored : ts_entry -> ts_entry;
  ts_rows : list ts_entry
}.

(** The database file: the rows of [hosts], whether [hosts.id] is declared
    [PRIMARY KEY] or [UNIQUE], and the table [ts] if there is one. *)
Record database : Type := mkDb {
  db_hosts : list host_record;
  db_id_is_key : bool;
  db_ts : option ts_table
}.

(** [FOREIGN KEY(host_id) REFERENCES hosts(id)] under
    [PRAGMA foreign_keys=1]: the id must be in [hosts], and when the
    referenced column is no key SQLite refuses every insert into the
    referencing table (foreign key mismatch). *)
Definition check_host_id (id_is_key : bool) (hosts_db : list host_record)
    (e : ts_entry) : bool :=
  id_is_key && existsb (fun h => (id h =? host_id e)%Z) hosts_db.

(** The constraints [ts_schema] declares, on a row as it is kept. *)
Definition ts_schema (id_is_key : bool) (hosts_db : list host_record)
    (e : ts_entry) : bool :=
  check_online (online e) && check_host_id id_is_key hosts_db e.

(** Lines 182 to 184: the empty table [cur.execute(ts_schema)] creates. *)
Definition create_ts (id_is_key : bool) : ts_table :=
  {| admits := ts_schema id_is_key; stored := store_entry; ts_rows := [] |}.

(** Line 186: the append, on the table as it is.  One row the table does
    not let in aborts the statement ([None], the exception of [sqlite3])
    and none of the rows is kept; without rows nothing is executed. *)
Definition to_sql (hosts_db : list host_record) (t : ts_table)
    (new : list ts_entry) : option ts_table :=
  let kept := map (stored t) new in
  if forallb (admits t hosts_db) kept
  then Some {| admits := admits t; stored := stored t;
               ts_rows := ts_rows t ++ kept |}
  else None.

(** Lines 174 to 186: the rows for the known hosts, the table created
    from [ts_schema] only when the file has none, then the append. *)
Definition store (db : database) (df : DataFrame) : option database :=
  let t := match db_ts db with
           | Some t => t
           | None => create_ts (db_id_is_key db)
           end in
  match to_sql (db_hosts db) t (df_sqlite df (db_hosts db)) with
  | Some t' => Some {| db_hosts := db_hosts db;
                       db_id_is_key := db_id_is_key db;
                       db_ts := Some t' |}
  | None => None
  end.

(** The rows of [ts] at rest. *)
Definition stored_rows (db : database) : list ts_entry :=
  match db_ts db with
  | Some t => ts_rows t
  | None => []
  end.

(** The file has no [ts], or a [ts] that was created from [ts_schema]. *)
Definition from_ts_schema (db : database) : Prop :=
  db_ts db = None
  \/ exists held,
       db_ts db = Some {| admits := ts_schema (db_id_is_key db);
                          stored := store_entry;
                          ts_rows := held |}.

(** A table named [ts] that declares no constraint and no column type:
    it lets every row in and keeps it as it comes. *)
Definition unconstrained_ts (held : list ts_entry) : ts_table :=
  {| admits := fun _ _ => true; stored := fun e => e; ts_rows := held |}.

(* ================================================================== *)
(** ** Worlds and inputs used in examples *)

Definition nl : string := String newline EmptyString.

(** A machine on which [fping] is installed and answers every command
    line with status [rc] and output [out]; the clock reads [now]. *)
Definition installed (rc : Z) (out : string) (now : Z) : world :=
  {| run := fun cmd =>
              match cmd with
              | prog :: _ =>
                  if String.eqb prog "which" then mkCP 0 "" else mkCP rc out
              | [] => mkCP rc out
              end;
     clock := now |}.

Definition with_include_failed_dns (b : bool) (kw : kwargs) : kwargs :=
  {| timeout_ms := timeout_ms kw;
     reverse_lookup := reverse_lookup kw;
     add_elapsed := add_elapsed kw;
     ipv4_only := ipv4_only kw;
     include_failed_dns := b |}.

(** What the probe printed for this request, and the hosts the parser
    finds in it (the [machine] column before reconciliation). *)
Definition probe_stdout (w : world) (hosts : list string) (kw : kwargs) : string :=
  stdout (run w (build_cmd kw ++ hosts)).

Definition reported (w : world) (hosts : list string) (kw : kwargs)
  : list string :=
  map (group 1) (stati (add_elapsed kw) (probe_stdout w hosts kw)).

(** The warning of lines 76 and 77, if any. *)
Definition dup_warnings (hosts : list string) : list warning :=
  let n_dup := len hosts - len_set hosts in
  if (n_dup >? 0)%Z then [DuplicatedHosts n_dup] else [].

(* ================================================================== *)
(** ** The claims in the specification's words, for comparison *)

(** Number of distinct entries of a list. *)
Definition distinct (l : list string) : nat := List.length (nodup string_dec l).

(** Requested hosts that are absent from the probe output. *)
Definition absent (hosts present : list string) : list string :=
  filter (fun x => negb (mem x present)) hosts.

(** Section 8, first property: the size of the reconciled result. *)
Definition spec_result_count (keepUnresolved : bool)
    (hosts present : list string) : nat :=
  distinct present
  + (if keepUnresolved then distinct (absent hosts present) else 0)%nat.

Definition spec_count_holds (w : world) (hosts : list string) (kw : kwargs)
  : Prop :=
  forall df, outcome (check_hosts w hosts kw) = Ok df ->
    List.length (rows df)
      = spec_result_count (include_failed_dns kw) hosts (reported w hosts kw)
    /\ (List.length (rows df) <= distinct hosts)%nat.

(** Section 4.3 with [keepUnresolved = false]: a warning exactly when some
    requested host is missing, carrying their number, and no entry added. *)
Definition spec_warning_holds (w : world) (hosts : list string) (kw : kwargs)
  : Prop :=
  forall df, outcome (check_hosts w hosts kw) = Ok df ->
    let missing := absent hosts (reported w hosts kw) in
    ((exists n, In (NoResult n) (emitted (check_hosts w hosts kw)))
       <-> missing <> [])
    /\ (forall n, In (NoResult n) (emitted (check_hosts w hosts kw)) ->
          n = Z.of_nat (distinct missing))
    /\ index df = reported w hosts kw.

(** Section 3: the values [online] may have at rest. *)
Definition online_domain (v : sqlval) : Prop :=
  v = SNull \/ v = SInt 0 \/ v = SInt 1.

(** Section 8, third property: whatever is appended, [online] at rest is
    0, 1 or NULL. *)
Definition spec_online_at_rest (db : database) (df : DataFrame) : Prop :=
  Forall (fun e => online_domain (online e)) (stored_rows db) ->
  forall db', store db df = Some db' ->
    Forall (fun e => online_domain (online e)) (stored_rows db').

(** The command line without [--exclude_failed]: every requested host the
    probe did not report is kept as a placeholder. *)
Definition spec_cli_keeps_unresolved (w : world) (hosts : list string)
    (args : Namespace) : Prop :=
  arg_exclude_failed args = false ->
  forall df, outcome (main_check w hosts args) = Ok df ->
    forall x, In x hosts -> ~ In x (reported w hosts (main_kwargs args)) ->
      exists r, In r (rows df) /\ machine r = x /\ reachable r = RNA.

(** A rational that binary64 holds exactly: in lowest terms the numerator
    has at most 53 bits and the denominator is a power of two no larger
    than [2 ^ 1074]. *)
Definition binary64_exact (q : Q) : bool :=
  let g := Z.gcd (Qnum q) (Zpos (Qden q)) in
  let n := (Qnum q / g)%Z in
  let d := (Zpos (Qden q) / g)%Z in
  (0 <=? n)%Z && (n <? 2 ^ 53)%Z
  && (d =? 2 ^ Z.log2 d)%Z && (Z.log2 d <=? 1074)%Z.

(** A host name as [fping] prints it: no blank and no line break. *)
Fixpoint hostlike (s : string) : bool :=
  match s with
  | EmptyString => true
  | String c s' =>
      negb (Ascii.eqb c " "%char) && negb (Ascii.eqb c newline) && hostlike s'
  end.

(* ================================================================== *)
(** ** Further definitions: report lines, the SQLite file, the handlers *)

(** All characters of a text belong to a class. *)
Fixpoint all_in (c : cclass) (s : string) : bool :=
  match s with
  | EmptyString => true
  | String a s' => in_class c a && all_in c s'
  end.

(** No blank anywhere in a text. *)
Fixpoint blank_free (s : string) : bool :=
  match s with
  | EmptyString => true
  | String a s' => negb (Ascii.eqb a " "%char) && blank_free s'
  end.

(** Whether a pattern contains the capturing group [n]. *)
Fixpoint binds (n : nat) (r : regex) : bool :=
  match r with
  | Lit _ | One _ | StarLazy _ | PlusGreedy _ => false
  | Cat r1 r2 => binds n r1 || binds n r2
  | Group m r' => Nat.eqb n m || binds n r'
  | Opt r' => binds n r'
  end.

(** The number written [int_part.frac_part]. *)
Definition decimal (int_part frac_part : string) : Q :=
  digits_value (digits_value 0 int_part) frac_part
  # Z.to_pos (pow10 (String.length frac_part)).

(** The line [fping -e] prints for a host that answered, with the latency
    written as [int_part], a separator and [frac_part]. *)
Definition latency_line (h int_part : string) (sep : ascii) (frac_part : string)
  : string :=
  (h ++ " is alive (" ++ (int_part ++ String sep frac_part) ++ " ms)" ++ nl)%string.

(** The two words [fping] reports a host with. *)
Definition word_of (alive : bool) : string :=
  if alive then "alive" else "unreachable".

(** The output [fping] prints for a sequence of hosts and their state, one
    line each. *)
Definition report_line (hb : string * bool) : string :=
  (fst hb ++ " is " ++ word_of (snd hb) ++ nl)%string.

Fixpoint report (l : list (string * bool)) : string :=
  match l with
  | [] => EmptyString
  | hb :: l' => (report_line hb ++ report l')%string
  end.

Definition report_row (now : Z) (hb : string * bool) : row :=
  mkRow (fst hb) (RBool (snd hb)) now LNaN.

(** Line 144: [b'SQLite format 3\x00'], and the test on the first 16
    bytes of the file. *)
Definition sqlite_magic : string :=
  String.append "SQLite format 3" (String (ascii_of_nat 0) EmptyString).

Definition valid_sqlite_header (content : string) : bool :=
  String.eqb (take 16 content) sqlite_magic.

(** How the main block ends after the probe: with the frame, with
    [exit(1)] after printing error lines, or with an exception no handler
    catches. *)
Inductive probe_end : Set :=
| Checked (df : DataFrame)
| Exit (code : Z) (printed : list string)
| Uncaught (e : exn).

Definition dquote : string := String (ascii_of_nat 34) EmptyString.

Definition permission_hint : string :=
  ("[red b]ERROR[/]: make sure fping has the right permissions (i.e. try "
   ++ dquote ++ "[dim]sudo setcap cap_net_raw+ep `which fping`[dim]"
   ++ dquote ++ " on linux)")%string.

(** Lines 156 to 166: the call and its two handlers. *)
Definition main_probe (w : world) (hosts : list string) (args : Namespace)
  : probe_end :=
  match outcome (main_check w hosts args) with
  | Ok df => Checked df
  | Raise (FPingException exit_code message) =>
      Exit 1
        ([("[red b]ERROR[/]: fping returned with: " ++ message)%string]
         ++ (if (exit_code =? 4)%Z then [permission_hint] else []))
  | Raise FPingNotFound =>
      Exit 1
        ["[red b]ERROR[/]: fping was not found. Please install it first and make sure it is executable and in $PATH."]
  | Raise e => Uncaught e
  end.

(* ================================================================== *)
(** ** Reasoning about computations *)

Lemma bind_Ok_inv A B (m : M A) (f : A -> M B) ws b :
  bind m f = (ws, Ok b) ->
  exists ws1 a ws2, m = (ws1, Ok a) /\ f a = (ws2, Ok b) /\ ws = ws1 ++ ws2.
Proof.
  destruct m as [ws1 [a | e]]; simpl.
  - destruct (f a) as [ws2 r] eqn:Hf. intros H. inversion H; subst.
    exists ws1, a, ws2. auto.
  - discriminate.
Qed.

Lemma bind_ret_l A B (a : A) (f : A -> M B) : bind (ret a) f = f a.
Proof. unfold bind, ret. destruct (f a). reflexivity. Qed.

Lemma when_Ok_inv b m ws u :
  when b m = (ws, Ok u) -> (b = false /\ ws = []) \/ (b = true /\ m = (ws, Ok u)).
Proof.
  destruct b; simpl; intros H.
  - right. auto.
  - left. inversion H. auto.
Qed.

Lemma mapM_ping_cell_Ok toks ws ps :
  mapM ping_cell toks = (ws, Ok ps) ->
  ws = [] /\ List.length ps = List.length toks.
Proof.
  revert ws ps. induction toks as [| t toks IH]; simpl; intros ws ps H.
  - inversion H. auto.
  - apply bind_Ok_inv in H. destruct H as (ws1 & p & ws2 & Hp & H & ->).
    apply bind_Ok_inv in H. destruct H as (ws3 & ps' & ws4 & Hps & H & ->).
    inversion H; subst. destruct (IH _ _ Hps) as [-> Hlen].
    assert (ws1 = []) as ->.
    { unfold ping_cell in Hp. destruct t; [inversion Hp; auto |].
      destruct (float_of _); inversion Hp; auto. }
    simpl. auto.
Qed.

Lemma combine_set_ping rs : forall ps,
  List.length ps = List.length rs ->
  let rs' := map (fun rp => set_ping (fst rp) (snd rp)) (combine rs ps) in
  map machine rs' = map machine rs
  /\ map reachable rs' = map reachable rs
  /\ map ts rs' = map ts rs.
Proof.
  induction rs as [| r rs IH]; intros [| p ps] Hlen; simpl in *;
    try discriminate; auto.
  injection Hlen as Hlen. destruct (IH ps Hlen) as (H1 & H2 & H3).
  rewrite H1, H2, H3. auto.
Qed.

(** What parsing delivers when it does not raise: no warning, one row per
    match, in order, with the machine of group 1, the reachability read
    off group 2 and the batch timestamp. *)
Lemma parse_frame_Ok e now out ws df :
  parse_frame e now out = (ws, Ok df) ->
  ws = []
  /\ has_ping df = e
  /\ index df = map (group 1) (stati e out)
  /\ map reachable (rows df)
     = map (fun c => replace_reachable (group 2 c)) (stati e out)
  /\ map ts (rows df) = map (fun _ => now) (stati e out).
Proof.
  unfold parse_frame, index. destruct e.
  - intros H. apply bind_Ok_inv in H. destruct H as (ws1 & ps & ws2 & Hps & H & ->).
    inversion H; subst; clear H. apply mapM_ping_cell_Ok in Hps.
    destruct Hps as [-> Hlen]. rewrite length_map in Hlen.
    rewrite <- (length_map (row_of now)) in Hlen.
    destruct (combine_set_ping _ _ Hlen) as (H1 & H2 & H3). simpl.
    rewrite H1, H2, H3, !map_map. simpl. auto.
  - intros H. inversion H; subst; clear H. simpl. rewrite !map_map. simpl. auto.
Qed.

Lemma len_df_index df : len_df df = len (index df).
Proof. unfold len_df, len, index. now rewrite length_map. Qed.

(** A successful call went through parsing and reconciliation. *)
Lemma check_hosts_Ok w hosts kw ws df :
  check_hosts w hosts kw = (ws, Ok df) ->
  exists df0 ws2,
    parse_frame (add_elapsed kw) (clock w) (probe_stdout w hosts kw) = ([], Ok df0)
    /\ reconcile hosts kw (clock w) df0 = (ws2, Ok df)
    /\ ws = dup_warnings hosts ++ ws2.
Proof.
  unfold check_hosts, dup_warnings. intros H.
  apply bind_Ok_inv in H. destruct H as (ws1 & [] & ws2 & Hdup & H & ->).
  assert (ws1 = if (len hosts - len_set hosts >? 0)%Z
                then [DuplicatedHosts (len hosts - len_set hosts)] else []) as ->.
  { destruct (len hosts - len_set hosts >? 0)%Z; inversion Hdup; auto. }
  destruct (negb _); [discriminate |].
  apply bind_Ok_inv in H. destruct H as (ws3 & [] & ws4 & Hst & H & ->).
  assert (ws3 = []) as ->.
  { unfold check_status in Hst. apply when_Ok_inv in Hst.
    destruct Hst as [[_ ?] | [_ Hst]]; auto.
    apply bind_Ok_inv in Hst. destruct Hst as (? & ? & ? & _ & Hr & _).
    discriminate. }
  apply bind_Ok_inv in H. destruct H as (ws5 & df0 & ws6 & Hp & H & ->).
  destruct (parse_frame_Ok _ _ _ Hp) as (-> & _).
  exists df0, ws6. auto.
Qed.

(** The outcome of reconciliation, case by case. *)
Lemma reconcile_cases hosts kw now df :
  reconcile hosts kw now df =
    if (len hosts =? len_df df)%Z then ([], Ok df)
    else if include_failed_dns kw then
      if reverse_lookup kw
      then ([MutuallyExclusive; NoResult (len hosts - len_df df)], Ok df)
      else ([], Ok (concat df (map (missing_row now) (missing_hosts hosts df))))
    else ([NoResult (len hosts - len_df df)], Ok df).
Proof.
  unfold reconcile.
  replace (len hosts - len_df df =? 0)%Z with (len hosts =? len_df df)%Z
    by (destruct (Z.eqb_spec (len hosts) (len_df df));
        destruct (Z.eqb_spec (len hosts - len_df df) 0); lia).
  destruct (len hosts =? len_df df)%Z; simpl; [reflexivity |].
  destruct (reverse_lookup kw), (include_failed_dns kw); reflexivity.
Qed.

(* ================================================================== *)
(** ** Counting requested and reported hosts *)

Lemma mem_In x l : mem x l = true <-> In x l.
Proof.
  unfold mem. rewrite existsb_exists. split.
  - intros (y & Hy & Heq). apply String.eqb_eq in Heq. now subst.
  - intros H. exists x. split; [assumption | apply String.eqb_refl].
Qed.

Lemma mem_false x l : mem x l = false <-> ~ In x l.
Proof.
  rewrite <- mem_In. destruct (mem x l); split; congruence.
Qed.

Lemma absent_In x hosts present :
  In x (absent hosts present) <-> In x hosts /\ ~ In x present.
Proof.
  unfold absent. rewrite filter_In, negb_true_iff, mem_false. tauto.
Qed.

Lemma missing_hosts_absent hosts df :
  missing_hosts hosts df = absent hosts (index df).
Proof. reflexivity. Qed.

Lemma split_length (f : string -> bool) l :
  (List.length (filter f l) + List.length (filter (fun x => negb (f x)) l)
   = List.length l)%nat.
Proof.
  induction l as [| a l IH]; simpl; [reflexivity |].
  destruct (f a); simpl; lia.
Qed.

(** Reported hosts that are pairwise distinct and all requested leave room
    for the absent ones within the request list. *)
Lemma reported_absent_le hosts present :
  NoDup present -> incl present hosts ->
  (List.length present + List.length (absent hosts present)
   <= List.length hosts)%nat.
Proof.
  intros Hnd Hincl. unfold absent.
  rewrite <- (split_length (fun x => mem x present) hosts).
  apply Nat.add_le_mono_r. apply NoDup_incl_length; [assumption |].
  intros x Hx. apply filter_In. split; [auto | now apply mem_In].
Qed.

(** With a duplicate-free request the two parts add up exactly. *)
Lemma reported_absent_eq hosts present :
  NoDup hosts -> NoDup present -> incl present hosts ->
  (List.length present + List.length (absent hosts present)
   = List.length hosts)%nat.
Proof.
  intros Hh Hnd Hincl. unfold absent.
  rewrite <- (split_length (fun x => mem x present) hosts).
  f_equal. apply Nat.le_antisymm.
  - apply NoDup_incl_length; [assumption |].
    intros x Hx. apply filter_In. split; [auto | now apply mem_In].
  - apply NoDup_incl_length; [now apply NoDup_filter |].
    intros x Hx. apply filter_In in Hx. now apply mem_In.
Qed.

Lemma distinct_NoDup l : NoDup l -> distinct l = List.length l.
Proof. intros H. unfold distinct. now rewrite nodup_fixed_point. Qed.

Lemma absent_nil_length hosts present :
  absent hosts present = [] <-> List.length (absent hosts present) = 0%nat.
Proof. destruct (absent hosts present); simpl; split; congruence. Qed.

Lemma outcome_bind A B (m : M A) (f : A -> M B) :
  outcome (bind m f)
  = match outcome m with
    | Ok a => outcome (f a)
    | Raise e => Raise e
    end.
Proof.
  destruct m as [ws [a | e]]; simpl; [| reflexivity].
  destruct (f a); reflexivity.
Qed.

Lemma outcome_when b (m : M unit) :
  outcome (when b m) = if b then outcome m else Ok tt.
Proof. destruct b; reflexivity. Qed.

Lemma map_const_Forall (now : Z) (rs : list row) B (l : list B) :
  map ts rs = map (fun _ => now) l -> Forall (fun r => ts r = now) rs.
Proof.
  revert l. induction rs as [| r rs IH]; intros [| b l] H; simpl in H;
    try discriminate; constructor.
  - now injection H.
  - injection H as _ H. eauto.
Qed.

(* ================================================================== *)
(** ** Exit status *)

(** Statuses below 3 pass the check without a warning or an exception. *)
Lemma check_status_success rc : rc < 3 -> check_status rc = ret tt.
Proof.
  intros H. unfold check_status.
  destruct (Z.geb_spec rc 3); [lia | reflexivity].
Qed.

(** Statuses 3 and 4 raise [FPingException] with the status and its text
    from [ret_codes]. *)
Lemma check_status_hard_failure :
  outcome (check_status 3)
    = Raise (FPingException 3 "invalid command line arguments")
  /\ outcome (check_status 4) = Raise (FPingException 4 "system call failure").
Proof. split; reflexivity. Qed.

(** From 5 on [ret_codes] has no entry and the constructor fails. *)
Lemma check_status_unlisted rc :
  5 <= rc -> outcome (check_status rc) = Raise (KeyError rc).
Proof.
  intros H. unfold check_status.
  destruct (Z.geb_spec rc 3); [| lia]. simpl when.
  unfold FPingException_init, ret_codes, dict_get.
  repeat match goal with
         | |- context [Z.eqb rc ?k] => destruct (Z.eqb_spec rc k); [lia |]
         end.
  reflexivity.
Qed.

Lemma installed_which rc out now :
  returncode (run (installed rc out now) ["which"; "fping"]) = 0.
Proof. reflexivity. Qed.

Lemma installed_probe rc out now hosts kw :
  run (installed rc out now) (build_cmd kw ++ hosts) = mkCP rc out.
Proof. reflexivity. Qed.

(** C1 (the code departs from the claim).  With exit status 5 the call
    does not end in an [FPingException] that carries the status and a
    cause: the lookup of the cause in [ret_codes] fails first and the call
    ends in a [KeyError], for every host list, option set and output. *)
Theorem C1_status_5_ends_in_KeyError : forall hosts kw out now,
  outcome (check_hosts (installed 5 out now) hosts kw) = Raise (KeyError 5).
Proof.
  intros hosts kw out now. unfold check_hosts.
  rewrite outcome_bind, outcome_when.
  assert (Hdup : forall n, outcome (warn (DuplicatedHosts n)) = Ok tt)
    by reflexivity.
  rewrite Hdup.
  replace (if (len hosts - len_set hosts >? 0)%Z then Ok tt else Ok tt)
    with (@Ok unit tt) by (destruct (len hosts - len_set hosts >? 0)%Z; reflexivity).
  rewrite installed_which. simpl negb. cbv iota.
  rewrite installed_probe. simpl returncode.
  rewrite outcome_bind. rewrite check_status_unlisted by lia. reflexivity.
Qed.

(* ================================================================== *)
(** ** Reconciliation *)

(** C5.  With [reverse_lookup] set, [include_failed_dns=True] and
    [include_failed_dns=False] end the same way for every world and host
    list: the same frame, or the same exception. *)
Theorem C5_conflict_downgrade : forall w hosts t e i,
  outcome (check_hosts w hosts (mkKw t true e i true))
  = outcome (check_hosts w hosts (mkKw t true e i false)).
Proof.
  intros w hosts t e i. unfold check_hosts.
  change (build_cmd (mkKw t true e i true))
    with (build_cmd (mkKw t true e i false)).
  rewrite !outcome_bind. destruct (outcome (when _ _)); [| reflexivity].
  cbv beta. destruct (negb _); [reflexivity |].
  rewrite !outcome_bind. destruct (outcome (check_status _)); [| reflexivity].
  cbv beta. simpl add_elapsed.
  destruct (outcome (parse_frame _ _ _)) as [df |]; [| reflexivity].
  cbv beta. rewrite !reconcile_cases. simpl.
  destruct (len hosts =? len_df df)%Z; reflexivity.
Qed.

(** C7.  Every row of the frame a call returns, parsed or placeholder,
    carries the one clock reading of that call. *)
Theorem C7_single_timestamp : forall w hosts kw df,
  outcome (check_hosts w hosts kw) = Ok df ->
  Forall (fun r => ts r = clock w) (rows df).
Proof.
  intros w hosts kw df H.
  destruct (check_hosts w hosts kw) as [ws r] eqn:Hc. simpl in H. subst r.
  apply check_hosts_Ok in Hc. destruct Hc as (df0 & ws2 & Hp & Hr & _).
  apply parse_frame_Ok in Hp. destruct Hp as (_ & _ & _ & _ & Hts).
  apply map_const_Forall in Hts.
  rewrite reconcile_cases in Hr.
  destruct (len hosts =? len_df df0)%Z; [now inversion Hr; subst |].
  destruct (include_failed_dns kw); [| now inversion Hr; subst].
  destruct (reverse_lookup kw); inversion Hr; subst; [assumption |].
  simpl. apply Forall_app. split; [assumption |].
  apply Forall_forall. intros r Hin. apply in_map_iff in Hin.
  destruct Hin as (x & <- & _). reflexivity.
Qed.

Lemma C7_single_timestamp_witness :
  let w := installed 2 ("a is alive" ++ nl ++ "b is unreachable" ++ nl)%string
             1700000000 in
  let kw := with_include_failed_dns true check_hosts_defaults in
  exists df, outcome (check_hosts w ["a"; "b"; "c"] kw) = Ok df
             /\ List.length (rows df) = 3%nat
             /\ Forall (fun r => ts r = 1700000000) (rows df).
Proof.
  intros w kw. eexists. split; [vm_compute; reflexivity |].
  split; [reflexivity |].
  apply (C7_single_timestamp w ["a"; "b"; "c"] kw). vm_compute. reflexivity.
Defined.

(** The request, the reported hosts and the result of a successful call. *)
Lemma check_hosts_shape w hosts kw ws df :
  check_hosts w hosts kw = (ws, Ok df) ->
  let present := reported w hosts kw in
  let n_err := (len hosts - len present)%Z in
  (n_err = 0%Z /\ index df = present /\ ws = dup_warnings hosts)
  \/ (n_err <> 0%Z /\ include_failed_dns kw = true /\ reverse_lookup kw = false
      /\ index df = present ++ absent hosts present
      /\ ws = dup_warnings hosts)
  \/ (n_err <> 0%Z /\ include_failed_dns kw = true /\ reverse_lookup kw = true
      /\ index df = present
      /\ ws = dup_warnings hosts ++ [MutuallyExclusive; NoResult n_err])
  \/ (n_err <> 0%Z /\ include_failed_dns kw = false
      /\ index df = present
      /\ ws = dup_warnings hosts ++ [NoResult n_err]).
Proof.
  intros Hc. apply check_hosts_Ok in Hc.
  destruct Hc as (df0 & ws2 & Hp & Hr & ->).
  apply parse_frame_Ok in Hp. destruct Hp as (_ & _ & Hidx & _).
  fold (reported w hosts kw) in Hidx. simpl.
  rewrite reconcile_cases, len_df_index, Hidx in Hr.
  destruct (Z.eqb_spec (len hosts) (len (reported w hosts kw))) as [He | Hne].
  - inversion Hr; subst. left. rewrite app_nil_r. repeat split; auto; lia.
  - right. destruct (include_failed_dns kw).
    + destruct (reverse_lookup kw); inversion Hr; subst.
      * right. left. repeat split; auto; lia.
      * left. rewrite app_nil_r. repeat split; auto; try lia.
        unfold index, concat. simpl. rewrite map_app, map_map. simpl.
        rewrite map_id. fold (index df0). rewrite missing_hosts_absent, Hidx.
        reflexivity.
    + inversion Hr; subst. right. right. repeat split; auto; lia.
Qed.

Lemma length_rows_index df : List.length (rows df) = List.length (index df).
Proof. unfold index. now rewrite length_map. Qed.

(** C2, as the code has it.  When the probe output names each host at most
    once and names requested hosts only, the result has one entry per
    reported host plus, with [include_failed_dns] set and [reverse_lookup]
    not set, one per entry of the request that is absent from the output,
    repeated entries counted each time; the total is at most the length of
    the request. *)
Theorem C2_result_count : forall w hosts kw df,
  outcome (check_hosts w hosts kw) = Ok df ->
  NoDup (reported w hosts kw) ->
  incl (reported w hosts kw) hosts ->
  List.length (rows df)
  = (List.length (reported w hosts kw)
     + (if include_failed_dns kw && negb (reverse_lookup kw)
        then List.length (absent hosts (reported w hosts kw))
        else 0))%nat
  /\ (List.length (rows df) <= List.length hosts)%nat.
Proof.
  intros w hosts kw df H Hnd Hincl.
  destruct (check_hosts w hosts kw) as [ws r] eqn:Hc. simpl in H. subst r.
  pose proof (reported_absent_le Hnd Hincl) as Hle.
  rewrite length_rows_index.
  destruct (check_hosts_shape _ _ _ Hc)
    as [(Hn & -> & _) | [(Hn & -> & -> & -> & _)
         | [(Hn & -> & -> & -> & _) | (Hn & -> & -> & _)]]];
    simpl; rewrite ?length_app; unfold len in *; try lia.
  destruct (include_failed_dns kw && negb (reverse_lookup kw)); lia.
Qed.

Lemma C2_result_count_witness :
  let w := installed 2 ("a is alive" ++ nl ++ "b is unreachable" ++ nl)%string
             1700000000 in
  let kw := with_include_failed_dns true check_hosts_defaults in
  exists df, outcome (check_hosts w ["a"; "b"; "c"] kw) = Ok df
             /\ List.length (rows df) = 3%nat
             /\ (List.length (rows df) <= 3)%nat.
Proof.
  intros w kw. eexists. split; [vm_compute; reflexivity |].
  assert (Hnd : NoDup (reported w ["a"; "b"; "c"] kw)).
  { vm_compute. repeat constructor; simpl; intuition discriminate. }
  assert (Hincl : incl (reported w ["a"; "b"; "c"] kw) ["a"; "b"; "c"]).
  { vm_compute. intuition (subst; auto). }
  exact (@C2_result_count w ["a"; "b"; "c"] kw _ eq_refl Hnd Hincl).
Defined.

(** C2 as the specification words it fails: repeated requests that did not
    resolve give one placeholder each; with [reverse_lookup] no placeholder
    is added at all; and output about a host that was not requested adds
    an entry beyond the distinct requested hosts. *)
Lemma C2_counterexample :
  ~ spec_count_holds (installed 2 "" 0) ["c"; "c"]
      (with_include_failed_dns true check_hosts_defaults)
  /\ ~ spec_count_holds (installed 2 ("a is alive" ++ nl)%string 0) ["a"; "b"]
         (mkKw (Some 50) true false true true)
  /\ ~ spec_count_holds
         (installed 0 ("a is alive" ++ nl ++ "b is alive" ++ nl)%string 0) ["a"]
         check_hosts_defaults.
Proof.
  repeat split; intros H; unfold spec_count_holds in H;
    (edestruct H as [H1 H2]; [vm_compute; reflexivity |]);
    vm_compute in H1; try discriminate.
  vm_compute in H2. lia.
Qed.

Lemma dup_warnings_NoDup hosts : NoDup hosts -> dup_warnings hosts = [].
Proof.
  intros H. unfold dup_warnings, len_set, len. rewrite nodup_fixed_point by assumption.
  rewrite Z.sub_diag. reflexivity.
Qed.

Lemma absent_NoDup hosts present : NoDup hosts -> NoDup (absent hosts present).
Proof. intros H. unfold absent. now apply NoDup_filter. Qed.

(** C4, as the code has it.  With [include_failed_dns] false the warning
    is governed by [len(hosts) - len(df)].  When the request has no
    repeated entry and the probe output names each host at most once and
    requested hosts only, that difference is the number of missing hosts,
    so the specification's wording holds: a warning exactly when a
    requested host is missing, carrying their number, and no entry added. *)
Theorem C4_partial_resolution_warning : forall w hosts kw,
  include_failed_dns kw = false ->
  NoDup hosts ->
  NoDup (reported w hosts kw) ->
  incl (reported w hosts kw) hosts ->
  spec_warning_holds w hosts kw.
Proof.
  intros w hosts kw Hk Hh Hnd Hincl df H.
  destruct (check_hosts w hosts kw) as [ws r] eqn:Hc. simpl in H. subst r.
  pose proof (reported_absent_eq Hh Hnd Hincl) as Heq.
  pose proof (distinct_NoDup (absent_NoDup (reported w hosts kw) Hh)) as Hd.
  unfold emitted. simpl fst. rewrite Hd.
  destruct (check_hosts_shape _ _ _ Hc)
    as [(Hn & Hi & ->) | [(_ & Hk' & _) | [(_ & Hk' & _) | (Hn & _ & Hi & ->)]]];
    try congruence; rewrite (dup_warnings_NoDup Hh); unfold len in Hn; simpl.
  - split; [split | split; [| assumption]].
    + intros (n & []).
    + intros Hm. exfalso. apply Hm. apply absent_nil_length. lia.
    + intros n [].
  - split; [split | split; [| assumption]].
    + intros _ Hm. apply absent_nil_length in Hm. lia.
    + intros _. eexists. left. reflexivity.
    + intros n [Hin | []]. inversion Hin. unfold len. lia.
Qed.

Lemma C4_partial_resolution_warning_witness :
  let w := installed 2 ("a is alive" ++ nl ++ "b is unreachable" ++ nl)%string
             1700000000 in
  let hosts := ["a"; "b"; "c"] in
  emitted (check_hosts w hosts check_hosts_defaults) = [NoResult 1]
  /\ spec_warning_holds w hosts check_hosts_defaults.
Proof.
  intros w hosts. split; [reflexivity |].
  apply (@C4_partial_resolution_warning w hosts check_hosts_defaults).
  - reflexivity.
  - unfold hosts. repeat constructor; simpl; intuition discriminate.
  - vm_compute. repeat constructor; simpl; intuition discriminate.
  - vm_compute. intuition (subst; auto).
Defined.

(** C4 as the specification words it fails.  A repeated entry whose host
    resolved triggers the warning although no requested host is missing;
    an output about a host that was not requested, or one that names a
    host twice, hides a missing host from the warning. *)
Lemma C4_counterexample :
  ~ spec_warning_holds (installed 0 ("a is alive" ++ nl)%string 0) ["a"; "a"]
      check_hosts_defaults
  /\ ~ spec_warning_holds (installed 0 ("b is alive" ++ nl)%string 0) ["a"]
         check_hosts_defaults
  /\ ~ spec_warning_holds
         (installed 0 ("a is alive" ++ nl ++ "a is alive" ++ nl)%string 0)
         ["a"; "b"] check_hosts_defaults.
Proof.
  repeat split; intros H; unfold spec_warning_holds in H;
    (edestruct H as ([H1 H2] & _ & _); [vm_compute; reflexivity |]).
  - apply H1; [| reflexivity]. exists 1. vm_compute. auto.
  - destruct H2 as (n & Hn); [vm_compute; discriminate |].
    vm_compute in Hn. exact Hn.
  - destruct H2 as (n & Hn); [vm_compute; discriminate |].
    vm_compute in Hn. exact Hn.
Qed.

(* ================================================================== *)
(** ** Parsing: what the second group lets through *)

(** [replace] produces a boolean exactly for the two words of [fping]. *)
Lemma replace_reachable_bool tok b :
  replace_reachable tok = RBool b
  <-> (tok = "alive" /\ b = true) \/ (tok = "unreachable" /\ b = false).
Proof.
  unfold replace_reachable.
  destruct (String.eqb_spec tok "alive") as [-> | Ha].
  - split; [intros H; inversion H; auto |].
    intros [[_ ->] | [H _]]; [reflexivity | discriminate].
  - destruct (String.eqb_spec tok "unreachable") as [-> | Hu].
    + split; [intros H; inversion H; auto |].
      intros [[H _] | [_ ->]]; [discriminate | reflexivity].
    + split; [discriminate | intros [[H _] | [H _]]; contradiction].
Qed.

(** C3 (the code departs from the claim).  The second group of the pattern
    is [[a-z]+], not the two words: the line [x is foo] is not ignored, it
    yields a record, and its [reachable] cell is the text [foo], neither
    true nor false.  A line can also yield more than one record. *)
Theorem C3_other_word_yields_record : forall now,
  outcome (check_hosts (installed 0 ("x is foo" ++ nl)%string now) ["x"]
             check_hosts_defaults)
  = Ok (mkDF false [mkRow "x" (RText "foo") now LNaN])
  /\ outcome (check_hosts
                (installed 0 ("a is alive b is alive" ++ nl)%string now)
                ["a"; "b"] check_hosts_defaults)
     = Ok (mkDF false [mkRow "a" (RBool true) now LNaN;
                       mkRow " b" (RBool true) now LNaN]).
Proof. intros now. split; reflexivity. Qed.

(* ================================================================== *)
(** ** The store *)

(** C6.  The rows handed to the store are exactly those built from a
    result and a [hosts] record with the result's name: timestamp and id
    copied, [reachable] mapped to 1, 0 or NULL, a missing latency to NULL.
    A result whose name no record has gives no row, and nothing else
    happens for it. *)
Theorem C6_store_rows : forall df hosts_db,
  (forall e, In e (df_sqlite df hosts_db) <->
     exists r h, In r (rows df) /\ In h hosts_db
       /\ hostname h = machine r
       /\ e = {| timestamp := ts r;
                 host_id := id h;
                 online := online_of (reachable r);
                 latency_ms := if has_ping df then latency_of (ping r)
                               else SNull |})
  /\ (forall r, (forall h, In h hosts_db -> hostname h <> machine r) ->
        join_row (has_ping df) hosts_db r = [])
  /\ online_of (RBool true) = SInt 1
  /\ online_of (RBool false) = SInt 0
  /\ online_of RNA = SNull
  /\ latency_of LNaN = SNull.
Proof.
  intros df hosts_db. split; [| split; [| repeat split]].
  - intros e. unfold df_sqlite, join_row. rewrite in_flat_map. split.
    + intros (r & Hr & He). apply in_map_iff in He.
      destruct He as (h & <- & Hh). apply filter_In in Hh.
      destruct Hh as [Hh Heq]. apply String.eqb_eq in Heq.
      exists r, h. auto.
    + intros (r & h & Hr & Hh & Heq & ->). exists r. split; [assumption |].
      apply in_map_iff. exists h. split; [reflexivity |].
      apply filter_In. split; [assumption | now apply String.eqb_eq].
  - intros r Hnone. unfold join_row.
    replace (filter _ hosts_db) with (@nil host_record); [reflexivity |].
    symmetry. induction hosts_db as [| h l IH]; simpl; [reflexivity |].
    destruct (String.eqb_spec (hostname h) (machine r)) as [Heq | _].
    + exfalso. apply (Hnone h); simpl; auto.
    + apply IH. intros h' Hh'. apply Hnone. simpl. auto.
Qed.

Lemma check_online_domain v : check_online v = true -> online_domain v.
Proof.
  unfold online_domain. destruct v as [| z | q | s]; simpl; try discriminate; auto.
  intros H. apply orb_true_iff in H. destruct H as [H | H];
    apply Z.eqb_eq in H; subst; auto.
Qed.

(* ================================================================== *)
(** ** The command line *)

(** C10, as the code has it.  Without [--exclude_failed] the main block
    calls [check_hosts] with [include_failed_dns=True], the other
    arguments taken from the command line, whereas the function's own
    default is [False].  Requested hosts the probe did not report are then
    kept as placeholders provided [--reverse] is not given and the number
    of parsed records differs from the length of the request. *)
Theorem C10_cli_keeps_unresolved : forall args,
  arg_exclude_failed args = false ->
  (forall w hosts,
     main_check w hosts args
     = check_hosts w hosts
         (mkKw (Some (arg_timeout args)) (arg_reverse args) (arg_elapsed args)
               (negb (arg_ipv6 args)) true))
  /\ include_failed_dns (main_kwargs args) = true
  /\ include_failed_dns check_hosts_defaults = false
  /\ (forall w hosts df x,
        arg_reverse args = false ->
        outcome (main_check w hosts args) = Ok df ->
        len hosts <> len (reported w hosts (main_kwargs args)) ->
        In x hosts -> ~ In x (reported w hosts (main_kwargs args)) ->
        In (missing_row (clock w) x) (rows df)).
Proof.
  intros args Hx. split; [| split; [| split]].
  - intros w hosts. unfold main_check, main_kwargs. now rewrite Hx.
  - unfold main_kwargs. simpl. now rewrite Hx.
  - reflexivity.
  - intros w hosts df x Hrev H Hlen Hin Hnot. unfold main_check in H.
    destruct (check_hosts w hosts (main_kwargs args)) as [ws r] eqn:Hc.
    simpl in H. subst r. apply check_hosts_Ok in Hc.
    destruct Hc as (df0 & ws2 & Hp & Hr & _).
    apply parse_frame_Ok in Hp. destruct Hp as (_ & _ & Hidx & _).
    fold (reported w hosts (main_kwargs args)) in Hidx.
    rewrite reconcile_cases, len_df_index, Hidx in Hr.
    destruct (Z.eqb_spec (len hosts) (len (reported w hosts (main_kwargs args))));
      [contradiction |].
    unfold main_kwargs in Hr at 1 2. simpl in Hr. rewrite Hx, Hrev in Hr.
    simpl in Hr. inversion Hr; subst. simpl. apply in_or_app. right.
    apply in_map. rewrite missing_hosts_absent, Hidx. now apply absent_In.
Qed.

Lemma C10_cli_keeps_unresolved_witness :
  arg_exclude_failed no_options = false
  /\ include_failed_dns (main_kwargs no_options) = true
  /\ In (missing_row 0 "c")
        (match outcome (main_check
                          (installed 2 ("a is alive" ++ nl)%string 0)
                          ["a"; "c"] no_options) with
         | Ok df => rows df
         | Raise _ => []
         end).
Proof.
  split; [reflexivity |].
  destruct (@C10_cli_keeps_unresolved no_options eq_refl) as (_ & Hk & _ & Hrows).
  split; [exact Hk |].
  apply (Hrows (installed 2 ("a is alive" ++ nl)%string 0) ["a"; "c"] _ "c"
           eq_refl eq_refl).
  - vm_compute. discriminate.
  - simpl. auto.
  - vm_compute. intuition discriminate.
Defined.

(** C10 as the claim words it fails.  With the defaults of the command
    line, a requested host is dropped without a placeholder when the
    probe output has as many records as the request has entries; and with
    [--reverse] no placeholder is added at all. *)
Lemma C10_counterexample :
  ~ spec_cli_keeps_unresolved
      (installed 0 ("a is alive" ++ nl ++ "a is alive" ++ nl)%string 0)
      ["a"; "b"] no_options
  /\ ~ spec_cli_keeps_unresolved
        (installed 2 ("a is alive" ++ nl)%string 0) ["a"; "b"]
        (mkArgs 50 false false true false).
Proof.
  split; intros H; unfold spec_cli_keeps_unresolved in H;
    (edestruct (H eq_refl) with (x := "b") as (r & Hr & Hm & _);
     [vm_compute; reflexivity | simpl; auto | vm_compute; intuition discriminate |]);
    vm_compute in Hr;
    repeat match goal with
           | Hr : _ \/ _ |- _ => destruct Hr as [Hr | Hr]
           | Hr : False |- _ => destruct Hr
           end;
    subst r; discriminate.
Qed.

(* ================================================================== *)
(** ** Matching a line that starts with a host name *)

Lemma length_append s t :
  String.length (s ++ t) = (String.length s + String.length t)%nat.
Proof. induction s as [| c s IH]; simpl; [reflexivity | now rewrite IH]. Qed.

Lemma append_assoc (s t u : string) : ((s ++ t) ++ u = s ++ (t ++ u))%string.
Proof. induction s as [| c s IH]; simpl; [reflexivity | now rewrite IH]. Qed.

Lemma take_append s t :
  take (String.length (s ++ t) - String.length t) (s ++ t) = s.
Proof.
  rewrite length_append, Nat.add_sub.
  induction s as [| c s IH]; simpl.
  - destruct t; reflexivity.
  - now rewrite IH.
Qed.

Lemma lazy_star_unfold A c (k : cont A) s caps :
  lazy_star c k s caps
  = match k s caps with
    | Some r => Some r
    | None =>
        match s with
        | String a s' => if in_class c a then lazy_star c k s' caps else None
        | EmptyString => None
        end
    end.
Proof. destruct s; reflexivity. Qed.

(** The lazy star walks over a host name when the rest of the pattern
    cannot start inside it. *)
Lemma lazy_star_host A (k : cont A) h tail caps :
  hostlike h = true ->
  (forall c s, c <> " "%char -> k (String c s) caps = None) ->
  lazy_star Dot k (h ++ tail) caps = lazy_star Dot k tail caps.
Proof.
  intros Hh Hk. induction h as [| c h IH]; [reflexivity |].
  simpl in Hh. apply andb_true_iff in Hh. destruct Hh as [Hc Hh].
  apply andb_true_iff in Hc. destruct Hc as [Hsp Hnl].
  apply negb_true_iff in Hsp. apply Ascii.eqb_neq in Hsp.
  change ((String c h ++ tail)%string) with (String c (h ++ tail)).
  rewrite lazy_star_unfold, (Hk c _ Hsp).
  unfold in_class. rewrite Hnl. auto.
Qed.

Lemma exec_host_prefix A (R : regex) n h tail caps (k : cont A) r :
  hostlike h = true ->
  (forall c s caps' (k' : cont A), c <> " "%char ->
     exec R (String c s) caps' k' = None) ->
  exec R tail ((n, h) :: caps) k = Some r ->
  exec (Cat (Group n (StarLazy Dot)) R) (h ++ tail) caps k = Some r.
Proof.
  intros Hh HR Htail. simpl.
  rewrite lazy_star_host by (auto; intros; apply HR; assumption).
  rewrite lazy_star_unfold, take_append, Htail. reflexivity.
Qed.

Lemma exec_Cat A r1 r2 s caps (k : cont A) :
  exec (Cat r1 r2) s caps k = exec r1 s caps (fun s' caps' => exec r2 s' caps' k).
Proof. reflexivity. Qed.

(** After [" is "] nothing matches a text that starts otherwise. *)
Lemma after_host_needs_blank A r c s caps (k : cont A) :
  c <> " "%char -> exec (Cat (Lit " is ") r) (String c s) caps k = None.
Proof.
  intros Hc. cbn [exec strip_prefix].
  apply Ascii.eqb_neq in Hc. rewrite Ascii.eqb_sym in Hc. now rewrite Hc.
Qed.

Lemma scan_skip p pre rest :
  scan p (String.length pre) (pre ++ rest) = scan p 0 rest.
Proof. induction pre as [| c pre IH]; simpl; [reflexivity | exact IH]. Qed.

(** A match at the start of the text is the first element of [findall];
    the search goes on behind it. *)
Lemma scan_hit p pre rest caps :
  pre <> EmptyString ->
  match_here p (pre ++ rest) = Some (rest, caps) ->
  scan p 0 (pre ++ rest) = caps :: scan p 0 rest.
Proof.
  intros Hpre H. destruct pre as [| c pre]; [contradiction |].
  change ((String c pre ++ rest)%string) with (String c (pre ++ rest)) in *.
  cbn [scan]. rewrite H. f_equal.
  replace (String.length (String c (pre ++ rest)) - String.length rest - 1)%nat
    with (String.length pre)
    by (cbn [String.length]; rewrite length_append; lia).
  apply scan_skip.
Qed.

Lemma host_line_nonempty h tail :
  tail <> EmptyString -> (h ++ tail)%string <> EmptyString.
Proof. destruct h; simpl; [auto | discriminate]. Qed.

(** One output line with a latency: one match, three groups. *)
Lemma stati_alive_latency h :
  hostlike h = true ->
  stati true (h ++ " is alive (12.3 ms)" ++ nl)
  = [[(3%nat, "12.3"); (2%nat, "alive"); (1%nat, h)]].
Proof.
  intros Hh. unfold stati, findall.
  rewrite <- append_assoc.
  rewrite scan_hit with (caps := [(3%nat, "12.3"); (2%nat, "alive"); (1%nat, h)]).
  - reflexivity.
  - apply host_line_nonempty. discriminate.
  - rewrite append_assoc. unfold match_here, pattern.
    rewrite exec_Cat. unfold pattern_base.
    apply exec_host_prefix; [assumption | | reflexivity].
    intros. now apply after_host_needs_blank.
Qed.

(** One output line without a latency: the third group stays empty. *)
Lemma stati_alive_plain h :
  hostlike h = true ->
  stati true (h ++ " is alive" ++ nl) = [[(2%nat, "alive"); (1%nat, h)]].
Proof.
  intros Hh. unfold stati, findall.
  rewrite <- append_assoc.
  rewrite scan_hit with (caps := [(2%nat, "alive"); (1%nat, h)]).
  - reflexivity.
  - apply host_line_nonempty. discriminate.
  - rewrite append_assoc. unfold match_here, pattern.
    rewrite exec_Cat. unfold pattern_base.
    apply exec_host_prefix; [assumption | | reflexivity].
    intros. now apply after_host_needs_blank.
Qed.

Lemma check_hosts_single out now h kw df :
  parse_frame (add_elapsed kw) now out = ret df ->
  List.length (rows df) = 1%nat ->
  check_hosts (installed 0 out now) [h] kw = ret df.
Proof.
  intros Hp Hlen. unfold check_hosts.
  replace (len [h] - len_set [h])%Z with 0%Z by reflexivity.
  simpl when. rewrite bind_ret_l, installed_which. simpl negb. cbv iota.
  rewrite installed_probe. simpl returncode. simpl stdout. simpl clock.
  rewrite check_status_success by lia. rewrite bind_ret_l.
  rewrite Hp, bind_ret_l, reconcile_cases.
  unfold len_df. rewrite Hlen. reflexivity.
Qed.

(** C9.  With latency capture on, for a host name without blanks, the
    line [<host> is alive (12.3 ms)] gives the latency 12.3 and the line
    [<host> is alive] gives [NaN], which is not the number zero. *)
Theorem C9_latency_capture : forall h now t r i k,
  hostlike h = true ->
  check_hosts (installed 0 (h ++ " is alive (12.3 ms)" ++ nl)%string now) [h]
    (mkKw t r true i k)
  = ret (mkDF true [mkRow h (RBool true) now (LVal (123 # 10))])
  /\ check_hosts (installed 0 (h ++ " is alive" ++ nl)%string now) [h]
       (mkKw t r true i k)
     = ret (mkDF true [mkRow h (RBool true) now LNaN])
  /\ LNaN <> LVal 0.
Proof.
  intros h now t r i k Hh. split; [| split].
  - apply check_hosts_single; [| reflexivity].
    unfold parse_frame. simpl add_elapsed.
    rewrite (@stati_alive_latency h Hh). reflexivity.
  - apply check_hosts_single; [| reflexivity].
    unfold parse_frame. simpl add_elapsed.
    rewrite (@stati_alive_plain h Hh). reflexivity.
  - discriminate.
Qed.

Lemma C9_latency_capture_witness :
  hostlike "srv-01.example.org" = true
  /\ outcome (check_hosts
                (installed 0 ("srv-01.example.org is alive (12.3 ms)" ++ nl)%string
                   1700000000)
                ["srv-01.example.org"] (mkKw (Some 50) false true true false))
     = Ok (mkDF true [mkRow "srv-01.example.org" (RBool true) 1700000000
                        (LVal (123 # 10))]).
Proof.
  split; [reflexivity |].
  destruct (@C9_latency_capture "srv-01.example.org" 1700000000 (Some 50) false
              true false eq_refl) as (H & _ & _).
  change (("srv-01.example.org" ++ " is alive (12.3 ms)" ++ nl)%string)
    with (("srv-01.example.org is alive (12.3 ms)" ++ nl)%string) in H.
  rewrite H. reflexivity.
Defined.

(* ================================================================== *)
(** ** The call as a whole: which step decides how it ends *)

Lemma mapM_ping_cell_emitted toks : emitted (mapM ping_cell toks) = [].
Proof.
  induction toks as [| t toks IH]; [reflexivity |].
  unfold emitted in *. simpl.
  assert (Hc : fst (ping_cell t) = []).
  { unfold ping_cell. destruct t; [reflexivity |]. destruct (float_of _); reflexivity. }
  destruct (ping_cell t) as [ws1 [p | e]]; simpl in Hc; subst; [| reflexivity].
  simpl. destruct (mapM ping_cell toks) as [ws2 [ps | e]]; simpl in IH; subst;
    reflexivity.
Qed.

Lemma parse_frame_emitted e now out : emitted (parse_frame e now out) = [].
Proof.
  unfold parse_frame. destruct e; [| reflexivity].
  pose proof (mapM_ping_cell_emitted (map (group 3) (stati true out))) as H.
  unfold emitted in *.
  destruct (mapM ping_cell _) as [ws [ps | ex]]; simpl in *; subst; reflexivity.
Qed.

Lemma check_status_emitted rc : emitted (check_status rc) = [].
Proof.
  unfold check_status. destruct (rc >=? 3)%Z; [| reflexivity]. simpl.
  unfold FPingException_init. destruct (dict_get rc ret_codes); reflexivity.
Qed.

(** The whole function, step by step: the duplicate warning comes first
    and stays, then the first step that raises ends the call. *)
Lemma check_hosts_cases w hosts kw :
  check_hosts w hosts kw
  = if negb (returncode (run w ["which"; "fping"]) =? 0)%Z
    then (dup_warnings hosts, Raise FPingNotFound)
    else
      match outcome (check_status (returncode (run w (build_cmd kw ++ hosts)))) with
      | Raise e => (dup_warnings hosts, Raise e)
      | Ok _ =>
          match outcome (parse_frame (add_elapsed kw) (clock w)
                           (probe_stdout w hosts kw)) with
          | Raise e => (dup_warnings hosts, Raise e)
          | Ok df0 =>
              (dup_warnings hosts ++ emitted (reconcile hosts kw (clock w) df0),
               outcome (reconcile hosts kw (clock w) df0))
          end
      end.
Proof.
  unfold check_hosts, dup_warnings, probe_stdout.
  set (d := (len hosts - len_set hosts)%Z).
  assert (Hw : when (d >? 0)%Z (warn (DuplicatedHosts d))
               = ((if (d >? 0)%Z then [DuplicatedHosts d] else []), Ok tt))
    by (destruct (d >? 0)%Z; reflexivity).
  rewrite Hw. clear Hw. generalize (if (d >? 0)%Z then [DuplicatedHosts d] else []).
  intros dw. cbn [bind].
  destruct (negb _); [simpl; now rewrite app_nil_r |].
  pose proof (check_status_emitted (returncode (run w (build_cmd kw ++ hosts)))) as Hs.
  destruct (check_status _) as [ws1 [[] | e]]; unfold emitted in Hs; simpl in Hs;
    subst ws1; cbn [bind outcome snd]; [| now rewrite app_nil_r].
  pose proof (parse_frame_emitted (add_elapsed kw) (clock w)
                (stdout (run w (build_cmd kw ++ hosts)))) as Hp.
  destruct (parse_frame _ _ _) as [ws2 [df0 | e]]; unfold emitted in Hp;
    simpl in Hp; subst ws2; cbn [bind outcome snd]; [| now rewrite app_nil_r].
  destruct (reconcile hosts kw (clock w) df0) as [ws3 r]. reflexivity.
Qed.

(** X1.  When [which fping] does not return 0 the call raises
    [FPingNotFound]; only the duplicate warning can have been emitted and
    nothing the probe would answer plays a role. *)
Theorem X1_fping_not_found : forall w hosts kw,
  returncode (run w ["which"; "fping"]) <> 0 ->
  check_hosts w hosts kw = (dup_warnings hosts, Raise FPingNotFound).
Proof.
  intros w hosts kw H. rewrite check_hosts_cases.
  destruct (Z.eqb_spec (returncode (run w ["which"; "fping"])) 0);
    [contradiction | reflexivity].
Qed.

Lemma X1_fping_not_found_witness :
  let w := mkWorld (fun _ => mkCP 1 "a is alive") 0 in
  returncode (run w ["which"; "fping"]) <> 0
  /\ check_hosts w ["a"; "a"] check_hosts_defaults
     = ([DuplicatedHosts 1], Raise FPingNotFound).
Proof.
  intros w. split; [discriminate |].
  apply (@X1_fping_not_found w ["a"; "a"] check_hosts_defaults). discriminate.
Defined.

Lemma nodup_length_le (l : list string) :
  (List.length (nodup string_dec l) <= List.length l)%nat.
Proof.
  induction l as [| a l IH]; simpl; [lia |].
  destruct (in_dec string_dec a l); simpl; lia.
Qed.

Lemma nodup_length_NoDup (l : list string) :
  List.length (nodup string_dec l) = List.length l <-> NoDup l.
Proof.
  split.
  - induction l as [| a l IH]; simpl; [constructor |].
    pose proof (nodup_length_le l).
    destruct (in_dec string_dec a l); simpl; intros Hlen; [lia |].
    constructor; [assumption | apply IH; lia].
  - intros H. now rewrite nodup_fixed_point.
Qed.

Lemma dup_warnings_In hosts n :
  In (DuplicatedHosts n) (dup_warnings hosts)
  <-> ~ NoDup hosts /\ n = (len hosts - len_set hosts)%Z.
Proof.
  unfold dup_warnings, len, len_set.
  pose proof (nodup_length_le hosts) as Hle.
  pose proof (nodup_length_NoDup hosts) as Hnd.
  destruct (Z.gtb_spec (Z.of_nat (List.length hosts)
                        - Z.of_nat (List.length (nodup string_dec hosts))) 0).
  - simpl. split.
    + intros [Hin | []]. inversion Hin. split; [| reflexivity].
      intros Hn. apply Hnd in Hn. lia.
    + intros [_ ->]. auto.
  - simpl. split; [tauto |]. intros [Hn _]. apply Hn. apply Hnd. lia.
Qed.

Lemma reconcile_emitted_no_dup hosts kw now df n :
  ~ In (DuplicatedHosts n) (emitted (reconcile hosts kw now df)).
Proof.
  rewrite reconcile_cases. destruct (len hosts =? len_df df)%Z; [simpl; tauto |].
  destruct (include_failed_dns kw); [destruct (reverse_lookup kw) |]; simpl;
    intuition discriminate.
Qed.

(** X2.  Whatever the world and however the call ends, the duplicate
    warning is emitted exactly when the request repeats an entry, and it
    carries [len(hosts) - len(set(hosts))]. *)
Theorem X2_duplicate_warning : forall w hosts kw n,
  In (DuplicatedHosts n) (emitted (check_hosts w hosts kw))
  <-> ~ NoDup hosts /\ n = (len hosts - len_set hosts)%Z.
Proof.
  intros w hosts kw n. rewrite <- dup_warnings_In, check_hosts_cases.
  destruct (negb _); [reflexivity |].
  destruct (outcome (check_status _)); [| reflexivity].
  destruct (outcome (parse_frame _ _ _)) as [df0 |]; [| reflexivity].
  unfold emitted at 1. simpl fst. rewrite in_app_iff.
  pose proof (@reconcile_emitted_no_dup hosts kw (clock w) df0 n). tauto.
Qed.

(** X3.  Below 3 the exit status plays no role: whether [fping] ends with
    0, 1, 2 or a negative status, the same output gives the same warnings
    and the same result. *)
Theorem X3_status_below_3_ignored : forall rc rc' out now hosts kw,
  rc < 3 -> rc' < 3 ->
  check_hosts (installed rc out now) hosts kw
  = check_hosts (installed rc' out now) hosts kw.
Proof.
  intros rc rc' out now hosts kw H H'. rewrite !check_hosts_cases.
  rewrite !installed_which. unfold probe_stdout. rewrite !installed_probe.
  simpl returncode. rewrite !check_status_success by assumption. reflexivity.
Qed.

Lemma X3_status_below_3_ignored_witness :
  check_hosts (installed (-9) ("a is alive" ++ nl)%string 0) ["a"; "b"]
    check_hosts_defaults
  = check_hosts (installed 2 ("a is alive" ++ nl)%string 0) ["a"; "b"]
      check_hosts_defaults.
Proof.
  apply (@X3_status_below_3_ignored (-9) 2); lia.
Defined.

(** X4.  Exit status 3 or 4 ends the call in [FPingException] with that
    status and its text from [ret_codes], whatever [fping] printed: the
    output is not parsed. *)
Theorem X4_hard_failure : forall rc out now hosts kw,
  rc = 3 \/ rc = 4 ->
  exists message,
    dict_get rc ret_codes = Some message
    /\ check_hosts (installed rc out now) hosts kw
       = (dup_warnings hosts, Raise (FPingException rc message)).
Proof.
  intros rc out now hosts kw [-> | ->]; eexists; (split; [reflexivity |]);
    rewrite check_hosts_cases, installed_which, installed_probe; reflexivity.
Qed.

Lemma X4_hard_failure_witness :
  check_hosts (installed 4 ("a is alive (1x2 ms)" ++ nl)%string 0) ["a"]
    (mkKw (Some 50) false true true false)
  = ([], Raise (FPingException 4 "system call failure")).
Proof.
  destruct (@X4_hard_failure 4 ("a is alive (1x2 ms)" ++ nl)%string 0 ["a"]
              (mkKw (Some 50) false true true false) (or_intror eq_refl))
    as (m & Hm & H).
  rewrite H. injection Hm as <-. reflexivity.
Defined.

(** X5.  From exit status 5 on the call ends in the [KeyError] of the
    lookup in [ret_codes], carrying the status, whatever was printed. *)
Theorem X5_unlisted_status : forall rc out now hosts kw,
  5 <= rc ->
  check_hosts (installed rc out now) hosts kw
  = (dup_warnings hosts, Raise (KeyError rc)).
Proof.
  intros rc out now hosts kw H.
  rewrite check_hosts_cases, installed_which, installed_probe.
  simpl returncode. rewrite check_status_unlisted by assumption. reflexivity.
Qed.

Lemma X5_unlisted_status_witness :
  check_hosts (installed 255 "" 0) ["a"] check_hosts_defaults
  = ([], Raise (KeyError 255)).
Proof.
  apply (@X5_unlisted_status 255 "" 0 ["a"] check_hosts_defaults). lia.
Defined.

(* ================================================================== *)
(** ** Reconciliation, case by case *)

(** A successful call, its parsed frame and its reconciliation. *)
Lemma check_hosts_Ok_parts w hosts kw df :
  outcome (check_hosts w hosts kw) = Ok df ->
  exists df0,
    parse_frame (add_elapsed kw) (clock w) (probe_stdout w hosts kw) = ([], Ok df0)
    /\ index df0 = reported w hosts kw
    /\ outcome (reconcile hosts kw (clock w) df0) = Ok df
    /\ emitted (check_hosts w hosts kw)
       = dup_warnings hosts ++ emitted (reconcile hosts kw (clock w) df0).
Proof.
  intros H. destruct (check_hosts w hosts kw) as [ws r] eqn:Hc.
  simpl in H. subst r. apply check_hosts_Ok in Hc.
  destruct Hc as (df0 & ws2 & Hp & Hr & ->). exists df0.
  destruct (parse_frame_Ok _ _ _ Hp) as (_ & _ & Hidx & _).
  rewrite Hr. simpl. auto.
Qed.

(** X6.  With [include_failed_dns] and without [reverse_lookup] the call
    never warns about missing results or about a conflict: however it
    ends, the duplicate warning is the only one it can emit. *)
Theorem X6_keep_mode_is_silent : forall w hosts t e i,
  emitted (check_hosts w hosts (mkKw t false e i true)) = dup_warnings hosts.
Proof.
  intros w hosts t e i. rewrite check_hosts_cases.
  destruct (negb _); [reflexivity |].
  destruct (outcome (check_status _)); [| reflexivity].
  destruct (outcome (parse_frame _ _ _)) as [df0 |]; [| reflexivity].
  unfold emitted at 1. simpl fst. rewrite reconcile_cases. simpl.
  destruct (len hosts =? len_df df0)%Z; simpl; now rewrite app_nil_r.
Qed.

(** X7.  With [include_failed_dns], without [reverse_lookup], and when the
    number of parsed records differs from the length of the request, the
    result is the parsed frame followed by one placeholder for every entry
    of the request whose host was not reported, in the order of the
    request: [reachable] is NA, [ping] is NaN, [ts] is the batch time. *)
Theorem X7_placeholders_appended : forall w hosts kw df,
  include_failed_dns kw = true ->
  reverse_lookup kw = false ->
  len hosts <> len (reported w hosts kw) ->
  outcome (check_hosts w hosts kw) = Ok df ->
  exists df0,
    outcome (parse_frame (add_elapsed kw) (clock w) (probe_stdout w hosts kw))
    = Ok df0
    /\ rows df
       = rows df0
         ++ map (fun x => mkRow x RNA (clock w) LNaN)
                (absent hosts (reported w hosts kw)).
Proof.
  intros w hosts kw df Hi Hr Hlen H.
  destruct (check_hosts_Ok_parts _ _ _ H) as (df0 & Hp & Hidx & Hrec & _).
  exists df0. rewrite Hp. split; [reflexivity |].
  rewrite reconcile_cases, len_df_index, Hidx, Hi, Hr in Hrec.
  destruct (Z.eqb_spec (len hosts) (len (reported w hosts kw))); [contradiction |].
  simpl in Hrec. inversion Hrec; subst. simpl.
  now rewrite missing_hosts_absent, Hidx.
Qed.

Lemma X7_placeholders_appended_witness :
  let w := installed 2 ("b is alive" ++ nl)%string 7 in
  let kw := with_include_failed_dns true check_hosts_defaults in
  exists df, outcome (check_hosts w ["c"; "b"; "a"; "c"] kw) = Ok df
    /\ exists df0,
         outcome (parse_frame false 7 (probe_stdout w ["c"; "b"; "a"; "c"] kw))
         = Ok df0
         /\ rows df = rows df0 ++ map (fun x => mkRow x RNA 7 LNaN) ["c"; "a"; "c"].
Proof.
  intros w kw. eexists. split; [vm_compute; reflexivity |].
  assert (Hlen : len ["c"; "b"; "a"; "c"]
                 <> len (reported w ["c"; "b"; "a"; "c"] kw))
    by (vm_compute; discriminate).
  exact (@X7_placeholders_appended w ["c"; "b"; "a"; "c"] kw _
           eq_refl eq_refl Hlen eq_refl).
Defined.

(** X8.  When the number of parsed records equals the length of the
    request nothing is reconciled, whatever the options: the result is the
    parsed frame, without placeholder and without a warning about missing
    hosts, even if a requested host is not among the reported ones. *)
Theorem X8_equal_lengths_skip_reconciliation : forall w hosts kw df,
  len hosts = len (reported w hosts kw) ->
  outcome (check_hosts w hosts kw) = Ok df ->
  outcome (parse_frame (add_elapsed kw) (clock w) (probe_stdout w hosts kw))
  = Ok df
  /\ emitted (check_hosts w hosts kw) = dup_warnings hosts.
Proof.
  intros w hosts kw df Hlen H.
  destruct (check_hosts_Ok_parts _ _ _ H) as (df0 & Hp & Hidx & Hrec & Hem).
  rewrite Hem, Hp. clear Hem.
  rewrite reconcile_cases, len_df_index, Hidx in *.
  destruct (Z.eqb_spec (len hosts) (len (reported w hosts kw))); [| contradiction].
  simpl in *. rewrite app_nil_r. now inversion Hrec.
Qed.

Lemma X8_equal_lengths_skip_reconciliation_witness :
  let w := installed 0 ("a is alive" ++ nl ++ "a is alive" ++ nl)%string 7 in
  let kw := with_include_failed_dns true check_hosts_defaults in
  exists df, outcome (check_hosts w ["a"; "b"] kw) = Ok df
             /\ index df = ["a"; "a"]
             /\ emitted (check_hosts w ["a"; "b"] kw) = [].
Proof.
  intros w kw. eexists. split; [vm_compute; reflexivity |].
  split; [reflexivity |].
  exact (proj2 (@X8_equal_lengths_skip_reconciliation w ["a"; "b"] kw _
                  eq_refl eq_refl)).
Defined.

(** X9.  With [include_failed_dns] false a successful call returns the
    parsed frame unchanged, and the warning about missing results is
    governed by the lengths alone: none when the request is as long as the
    parsed frame, otherwise one carrying [len(hosts) - len(df)], which is
    negative when more records were parsed than hosts requested. *)
Theorem X9_drop_mode_warning : forall w hosts kw df,
  include_failed_dns kw = false ->
  outcome (check_hosts w hosts kw) = Ok df ->
  outcome (parse_frame (add_elapsed kw) (clock w) (probe_stdout w hosts kw))
  = Ok df
  /\ emitted (check_hosts w hosts kw)
     = dup_warnings hosts
       ++ (if (len hosts =? len (reported w hosts kw))%Z then []
           else [NoResult (len hosts - len (reported w hosts kw))]).
Proof.
  intros w hosts kw df Hi H.
  destruct (check_hosts_Ok_parts _ _ _ H) as (df0 & Hp & Hidx & Hrec & Hem).
  rewrite Hem, Hp. clear Hem.
  rewrite reconcile_cases, len_df_index, Hidx, Hi in *.
  destruct (len hosts =? len (reported w hosts kw))%Z; simpl in *;
    now inversion Hrec.
Qed.

Lemma X9_drop_mode_warning_witness :
  let w := installed 0 ("a is alive" ++ nl ++ "b is alive" ++ nl)%string 7 in
  exists df, outcome (check_hosts w ["a"] check_hosts_defaults) = Ok df
             /\ index df = ["a"; "b"]
             /\ emitted (check_hosts w ["a"] check_hosts_defaults)
                = [NoResult (-1)].
Proof.
  intros w. eexists. split; [vm_compute; reflexivity |].
  split; [reflexivity |].
  exact (proj2 (@X9_drop_mode_warning w ["a"] check_hosts_defaults _
                  eq_refl eq_refl)).
Defined.

(** X10.  With both [reverse_lookup] and [include_failed_dns] a successful
    call warns about the conflict exactly when the request and the parsed
    frame differ in length; when they agree the conflicting options pass
    without any notice. *)
Theorem X10_conflict_warning : forall w hosts kw df,
  reverse_lookup kw = true ->
  include_failed_dns kw = true ->
  outcome (check_hosts w hosts kw) = Ok df ->
  (In MutuallyExclusive (emitted (check_hosts w hosts kw))
   <-> len hosts <> len (reported w hosts kw)).
Proof.
  intros w hosts kw df Hr Hi H.
  destruct (check_hosts_Ok_parts _ _ _ H) as (df0 & _ & Hidx & _ & Hem).
  rewrite Hem. clear Hem.
  rewrite reconcile_cases, len_df_index, Hidx, Hi, Hr.
  assert (Hd : ~ In MutuallyExclusive (dup_warnings hosts)).
  { unfold dup_warnings. destruct (_ >? 0)%Z; simpl; intuition discriminate. }
  rewrite in_app_iff.
  destruct (Z.eqb_spec (len hosts) (len (reported w hosts kw))); simpl; tauto.
Qed.

Lemma X10_conflict_warning_witness :
  let w := installed 0 ("a is alive" ++ nl)%string 7 in
  let kw := mkKw (Some 50) true false true true in
  emitted (check_hosts w ["a"] kw) = []
  /\ (In MutuallyExclusive (emitted (check_hosts w ["a"] kw))
      <-> len ["a"] <> len (reported w ["a"] kw)).
Proof.
  intros w kw. split; [reflexivity |].
  apply (@X10_conflict_warning w ["a"] kw _ eq_refl eq_refl eq_refl).
Defined.

(** X11.  With [include_failed_dns] and without [reverse_lookup], when the
    probe output names each host at most once and names requested hosts
    only, every requested host has a row in the result. *)
Theorem X11_every_host_covered : forall w hosts kw df,
  include_failed_dns kw = true ->
  reverse_lookup kw = false ->
  NoDup (reported w hosts kw) ->
  incl (reported w hosts kw) hosts ->
  outcome (check_hosts w hosts kw) = Ok df ->
  incl hosts (index df).
Proof.
  intros w hosts kw df Hi Hr Hnd Hincl H x Hx.
  destruct (check_hosts w hosts kw) as [ws r] eqn:Hc. simpl in H. subst r.
  pose proof (reported_absent_le Hnd Hincl) as Hle.
  destruct (in_dec string_dec x (reported w hosts kw)) as [Hin | Hout].
  - destruct (check_hosts_shape _ _ _ Hc)
      as [(_ & -> & _) | [(_ & _ & _ & -> & _)
           | [(_ & _ & _ & -> & _) | (_ & _ & -> & _)]]];
      try assumption. apply in_or_app. now left.
  - assert (Hab : In x (absent hosts (reported w hosts kw)))
      by now apply absent_In.
    destruct (check_hosts_shape _ _ _ Hc)
      as [(Hn & _) | [(_ & _ & _ & -> & _)
           | [(_ & _ & Hr' & _) | (_ & Hi' & _)]]]; try congruence.
    + exfalso. unfold len in Hn.
      destruct (absent hosts (reported w hosts kw)); [contradiction |].
      simpl in Hle. lia.
    + apply in_or_app. now right.
Qed.

Lemma X11_every_host_covered_witness :
  let w := installed 2 ("b is alive" ++ nl)%string 7 in
  let kw := with_include_failed_dns true check_hosts_defaults in
  exists df, outcome (check_hosts w ["a"; "b"; "a"] kw) = Ok df
             /\ incl ["a"; "b"; "a"] (index df).
Proof.
  intros w kw. eexists. split; [vm_compute; reflexivity |].
  apply (@X11_every_host_covered w ["a"; "b"; "a"] kw);
    [reflexivity | reflexivity | | | reflexivity].
  - vm_compute. repeat constructor; simpl; intuition discriminate.
  - vm_compute. intuition (subst; auto).
Defined.

(* ================================================================== *)
(** ** Parsing what [fping] prints *)

(** A greedy repetition takes a whole word when the text behind it starts
    outside the class. *)
Lemma greedy_star_word A c (k : cont A) wd tail caps r :
  all_in c wd = true ->
  match tail with
  | String b _ => in_class c b = false
  | EmptyString => True
  end ->
  k tail caps = Some r ->
  greedy_star c k (wd ++ tail) caps = Some r.
Proof.
  intros Hwd Htail Hk. induction wd as [| a wd IH].
  - simpl. destruct tail as [| b t]; simpl; [assumption |]. now rewrite Htail.
  - simpl in Hwd. apply andb_true_iff in Hwd. destruct Hwd as [Ha Hwd].
    change ((String a wd ++ tail)%string) with (String a (wd ++ tail)).
    cbn [greedy_star]. rewrite Ha, (IH Hwd). reflexivity.
Qed.

Lemma exec_word A n c a wd tail caps (k : cont A) r :
  in_class c a = true ->
  all_in c wd = true ->
  match tail with
  | String b _ => in_class c b = false
  | EmptyString => True
  end ->
  k tail ((n, String a wd) :: caps) = Some r ->
  exec (Group n (PlusGreedy c)) (String a wd ++ tail) caps k = Some r.
Proof.
  intros Ha Hwd Htail Hk.
  change ((String a wd ++ tail)%string) with (String a (wd ++ tail)).
  cbn [exec]. rewrite Ha. apply greedy_star_word; [assumption | assumption |].
  change (String a (wd ++ tail)) with ((String a wd ++ tail)%string).
  now rewrite take_append.
Qed.

Lemma exec_Lit A l r s s' caps (k : cont A) :
  strip_prefix l s = Some s' ->
  exec (Cat (Lit l) r) s caps k = exec r s' caps k.
Proof. intros H. cbn [exec]. now rewrite H. Qed.

Lemma exec_group_lazy A n c R s caps (k : cont A) :
  exec (Cat (Group n (StarLazy c)) R) s caps k
  = lazy_star c
      (fun s' caps' =>
         exec R s' ((n, take (String.length s - String.length s') s) :: caps') k)
      s caps.
Proof. reflexivity. Qed.

(** The optional latency group steps aside at a line break. *)
Lemma exec_elapsed_at_newline A s caps (k : cont A) :
  exec pattern_elapsed (String newline s) caps k = k (String newline s) caps.
Proof. reflexivity. Qed.

Lemma match_here_report_line e h b rest :
  hostlike h = true ->
  match_here (pattern e) (h ++ " is " ++ word_of b ++ nl ++ rest)
  = Some ((nl ++ rest)%string, [(2%nat, word_of b); (1%nat, h)]).
Proof.
  intros Hh. unfold match_here.
  assert (Hbase : forall k : cont (string * captures),
             k (nl ++ rest)%string [(2%nat, word_of b); (1%nat, h)]
             = Some ((nl ++ rest)%string, [(2%nat, word_of b); (1%nat, h)]) ->
             exec pattern_base (h ++ " is " ++ word_of b ++ nl ++ rest) [] k
             = Some ((nl ++ rest)%string, [(2%nat, word_of b); (1%nat, h)])).
  { intros k Hk. unfold pattern_base. apply exec_host_prefix; [assumption | |].
    - intros. now apply after_host_needs_blank.
    - rewrite exec_Lit with (s' := (word_of b ++ nl ++ rest)%string)
        by reflexivity.
      destruct b; unfold word_of; (apply exec_word; [reflexivity .. | exact Hk]). }
  destruct e; unfold pattern.
  - rewrite exec_Cat. apply Hbase. reflexivity.
  - apply Hbase. reflexivity.
Qed.

Lemma match_here_newline e s : match_here (pattern e) (String newline s) = None.
Proof.
  assert (Hbase : forall k : cont (string * captures),
             exec pattern_base (String newline s) [] k = None).
  { intros k. unfold pattern_base.
    rewrite exec_group_lazy, lazy_star_unfold, after_host_needs_blank
      by discriminate.
    reflexivity. }
  unfold match_here. destruct e; unfold pattern; [rewrite exec_Cat |]; apply Hbase.
Qed.

Lemma scan_newline e s :
  scan (pattern e) 0 (String newline s) = scan (pattern e) 0 s.
Proof. cbn [scan]. now rewrite match_here_newline. Qed.

Lemma replace_reachable_word b : replace_reachable (word_of b) = RBool b.
Proof. destruct b; reflexivity. Qed.

(** The matches in a report: one per line, in order. *)
Lemma stati_report e l :
  Forall (fun hb => hostlike (fst hb) = true) l ->
  stati e (report l)
  = map (fun hb => [(2%nat, word_of (snd hb)); (1%nat, fst hb)]) l.
Proof.
  intros Hl. unfold stati, findall. induction Hl as [| [h b] l Hh _ IH].
  - destruct e; reflexivity.
  - cbn [report map fst snd]. unfold report_line. cbn [fst snd].
    replace ((h ++ " is " ++ word_of b ++ nl) ++ report l)%string
      with ((h ++ " is " ++ word_of b) ++ nl ++ report l)%string
      by (rewrite !append_assoc; reflexivity).
    rewrite scan_hit with (caps := [(2%nat, word_of b); (1%nat, h)]).
    + change ((nl ++ report l)%string) with (String newline (report l)).
      now rewrite scan_newline, IH.
    + apply host_line_nonempty. discriminate.
    + rewrite !append_assoc. now apply match_here_report_line.
Qed.

Lemma parse_frame_report e now l :
  Forall (fun hb => hostlike (fst hb) = true) l ->
  parse_frame e now (report l) = ret (mkDF e (map (report_row now) l)).
Proof.
  intros Hl. unfold parse_frame. rewrite (stati_report e Hl). clear Hl.
  assert (Hrows : map (row_of now)
                    (map (fun hb : string * bool =>
                            [(2%nat, word_of (snd hb)); (1%nat, fst hb)]) l)
                  = map (report_row now) l).
  { rewrite map_map. apply map_ext. intros [h b]. unfold row_of, report_row.
    cbn. now rewrite replace_reachable_word. }
  rewrite Hrows. destruct e; [| reflexivity].
  assert (Hps : mapM ping_cell
                  (map (group 3)
                     (map (fun hb : string * bool =>
                             [(2%nat, word_of (snd hb)); (1%nat, fst hb)]) l))
                = ret (map (fun _ => LNaN) l)).
  { clear Hrows. induction l as [| hb l IH]; [reflexivity |].
    cbn [map mapM group Nat.eqb ping_cell]. rewrite bind_ret_l, IH, bind_ret_l.
    reflexivity. }
  rewrite Hps, bind_ret_l. do 2 f_equal. clear Hrows Hps.
  induction l as [| [h b] l IH]; [reflexivity |]. cbn [map combine fst snd].
  now rewrite IH.
Qed.

(** X12.  Reading back what [fping] prints: for a sequence of hosts whose
    names hold no blank and no line break, each with its state, the lines
    [<host> is alive] and [<host> is unreachable] are parsed into one row
    per line, in order, with the host, the boolean and the batch time, for
    every status below 3 and with or without latency capture; when the
    request is that sequence of hosts nothing is reconciled. *)
Theorem X12_report_round_trip : forall rc now l kw,
  Forall (fun hb => hostlike (fst hb) = true) l ->
  rc < 3 ->
  check_hosts (installed rc (report l) now) (map fst l) kw
  = (dup_warnings (map fst l),
     Ok (mkDF (add_elapsed kw) (map (report_row now) l))).
Proof.
  intros rc now l kw Hl Hrc.
  rewrite check_hosts_cases, installed_which. unfold probe_stdout.
  rewrite installed_probe. simpl negb. cbv iota. simpl returncode.
  rewrite check_status_success by assumption. simpl stdout. simpl clock.
  rewrite parse_frame_report by assumption. cbn [outcome snd ret].
  rewrite reconcile_cases. unfold len_df, len. cbn [rows].
  rewrite !length_map, Z.eqb_refl. simpl. now rewrite app_nil_r.
Qed.

Lemma X12_report_round_trip_witness :
  outcome (check_hosts
             (installed 1 ("gw.lan is alive" ++ nl
                           ++ "10.0.0.7 is unreachable" ++ nl)%string 7)
             ["gw.lan"; "10.0.0.7"] check_hosts_defaults)
  = Ok (mkDF false [mkRow "gw.lan" (RBool true) 7 LNaN;
                    mkRow "10.0.0.7" (RBool false) 7 LNaN]).
Proof.
  assert (Hl : Forall (fun hb : string * bool => hostlike (fst hb) = true)
                 [("gw.lan", true); ("10.0.0.7", false)])
    by (repeat constructor).
  assert (Hrc : 1 < 3) by lia.
  pose proof (@X12_report_round_trip 1 7 _ check_hosts_defaults Hl Hrc) as H.
  change (outcome (check_hosts
                     (installed 1 (report [("gw.lan", true); ("10.0.0.7", false)]) 7)
                     (map fst [("gw.lan", true); ("10.0.0.7", false)])
                     check_hosts_defaults)
          = Ok (mkDF false (map (report_row 7)
                              [("gw.lan", true); ("10.0.0.7", false)]))).
  rewrite H. reflexivity.
Defined.

Lemma lazy_star_blank_free A c (k : cont A) s caps :
  (forall s', blank_free s' = true -> k s' caps = None) ->
  blank_free s = true ->
  lazy_star c k s caps = None.
Proof.
  intros Hk. induction s as [| a s IH]; intros Hs.
  - cbn [lazy_star]. now rewrite Hk.
  - rewrite lazy_star_unfold, Hk by assumption.
    simpl in Hs. apply andb_true_iff in Hs. destruct Hs as [_ Hs].
    destruct (in_class c a); auto.
Qed.

Lemma needs_blank_blank_free A r s caps (k : cont A) :
  blank_free s = true -> exec (Cat (Lit " is ") r) s caps k = None.
Proof.
  destruct s as [| a s]; [reflexivity |]. intros Hs.
  simpl in Hs. apply andb_true_iff in Hs. destruct Hs as [Ha _].
  apply negb_true_iff, Ascii.eqb_neq in Ha. now apply after_host_needs_blank.
Qed.

Lemma match_here_blank_free e s :
  blank_free s = true -> match_here (pattern e) s = None.
Proof.
  intros Hs.
  assert (Hbase : forall k : cont (string * captures),
             exec pattern_base s [] k = None).
  { intros k. unfold pattern_base. rewrite exec_group_lazy.
    apply lazy_star_blank_free; [| assumption].
    intros s' Hs'. now apply needs_blank_blank_free. }
  unfold match_here. destruct e; unfold pattern; [rewrite exec_Cat |]; apply Hbase.
Qed.

Lemma stati_blank_free e out : blank_free out = true -> stati e out = [].
Proof.
  unfold stati, findall. generalize 0%nat.
  induction out as [| a s IH]; intros n Hs.
  - cbn [scan]. destruct n; [| reflexivity].
    now rewrite match_here_blank_free.
  - cbn [scan]. destruct n.
    + rewrite match_here_blank_free by assumption.
      simpl in Hs. apply andb_true_iff in Hs. now apply IH.
    + simpl in Hs. apply andb_true_iff in Hs. now apply IH.
Qed.

Lemma filter_all (hosts : list string) :
  filter (fun x => negb (mem x [])) hosts = hosts.
Proof.
  induction hosts as [| a l IH]; [reflexivity |].
  cbn [filter]. change (mem a []) with false. cbn [negb]. now rewrite IH.
Qed.

(** X13.  Output without a single blank, the empty output included, holds
    no record.  With [include_failed_dns] and without [reverse_lookup]
    every entry of the request, repeated ones too, then comes back as a
    placeholder in request order; with [include_failed_dns] false the
    frame is empty and the warning carries the length of the request. *)
Theorem X13_nothing_reported : forall rc out now hosts t r e i,
  blank_free out = true ->
  rc < 3 ->
  check_hosts (installed rc out now) hosts (mkKw t false e i true)
  = (dup_warnings hosts, Ok (mkDF e (map (missing_row now) hosts)))
  /\ check_hosts (installed rc out now) hosts (mkKw t r e i false)
     = (dup_warnings hosts
        ++ (if (len hosts =? 0)%Z then [] else [NoResult (len hosts)]),
        Ok (mkDF e [])).
Proof.
  intros rc out now hosts t r e i Hout Hrc.
  assert (Hp : parse_frame e now out = ret (mkDF e [])).
  { unfold parse_frame. rewrite stati_blank_free by assumption.
    destruct e; reflexivity. }
  split; rewrite check_hosts_cases, installed_which; unfold probe_stdout;
    rewrite installed_probe; simpl negb; cbv iota; simpl returncode;
    rewrite check_status_success by assumption; simpl stdout; simpl clock;
    simpl add_elapsed; rewrite Hp; cbn [outcome snd ret];
    rewrite reconcile_cases; unfold len_df; cbn [rows List.length Z.of_nat];
    rewrite Z.sub_0_r; simpl include_failed_dns; simpl reverse_lookup; cbv iota.
  - destruct (Z.eqb_spec (len hosts) 0) as [H0 | _]; simpl;
      rewrite app_nil_r; [| unfold concat, missing_hosts, index;
                              simpl; now rewrite filter_all].
    destruct hosts; [reflexivity | discriminate].
  - destruct (len hosts =? 0)%Z; reflexivity.
Qed.

Lemma X13_nothing_reported_witness :
  check_hosts (installed 2 "" 7) ["c"; "d"; "c"]
    (mkKw (Some 50) false false true true)
  = ([DuplicatedHosts 1],
     Ok (mkDF false [mkRow "c" RNA 7 LNaN; mkRow "d" RNA 7 LNaN;
                     mkRow "c" RNA 7 LNaN])).
Proof.
  assert (Hout : blank_free "" = true) by reflexivity.
  assert (Hrc : 2 < 3) by lia.
  exact (proj1 (@X13_nothing_reported 2 "" 7 ["c"; "d"; "c"] (Some 50) false
                  false true Hout Hrc)).
Defined.

(* ================================================================== *)
(** ** What a match can hold *)

Lemma lazy_star_inv A c (k : cont A) s caps r :
  lazy_star c k s caps = Some r ->
  exists pre s', s = (pre ++ s')%string /\ all_in c pre = true
                 /\ k s' caps = Some r.
Proof.
  induction s as [| a s IH]; rewrite lazy_star_unfold.
  - destruct (k EmptyString caps) eqn:Hk; [| discriminate].
    intros H. exists EmptyString, EmptyString. rewrite Hk. auto.
  - destruct (k (String a s) caps) eqn:Hk.
    + intros H. exists EmptyString, (String a s). rewrite Hk. auto.
    + destruct (in_class c a) eqn:Ha; [| discriminate].
      intros H. destruct (IH H) as (pre & s' & -> & Hpre & Hs').
      exists (String a pre), s'. simpl. rewrite Ha. auto.
Qed.

Lemma greedy_star_inv A c (k : cont A) s caps r :
  greedy_star c k s caps = Some r ->
  exists pre s', s = (pre ++ s')%string /\ all_in c pre = true
                 /\ k s' caps = Some r.
Proof.
  induction s as [| a s IH]; cbn [greedy_star].
  - intros H. exists EmptyString, EmptyString. auto.
  - destruct (in_class c a) eqn:Ha.
    + destruct (greedy_star c k s caps) eqn:Hg.
      * intros H. destruct (IH H) as (pre & s' & -> & Hpre & Hs').
        exists (String a pre), s'. simpl. rewrite Ha. auto.
      * intros H. exists EmptyString, (String a s). auto.
    + intros H. exists EmptyString, (String a s). auto.
Qed.

(** Running a pattern reaches its continuation with the groups it does
    not contain unchanged. *)
Lemma exec_frame A (r : regex) : forall s caps (k : cont A) x,
  exec r s caps k = Some x ->
  exists s' caps', k s' caps' = Some x
    /\ forall n, binds n r = false -> group n caps' = group n caps.
Proof.
  induction r as [l | c | c | c | r1 IH1 r2 IH2 | m r' IH | r' IH];
    intros s caps k x H; cbn [exec] in H.
  - destruct (strip_prefix l s); [| discriminate]. eauto.
  - destruct s as [| a s]; [discriminate |].
    destruct (in_class c a); [| discriminate]. eauto.
  - apply lazy_star_inv in H. destruct H as (_ & s' & _ & _ & H). eauto.
  - destruct s as [| a s]; [discriminate |].
    destruct (in_class c a); [| discriminate].
    apply greedy_star_inv in H. destruct H as (_ & s' & _ & _ & H). eauto.
  - apply IH1 in H. destruct H as (s1 & c1 & H & F1).
    apply IH2 in H. destruct H as (s2 & c2 & H & F2).
    exists s2, c2. split; [assumption |]. intros n Hn. cbn [binds] in Hn.
    apply orb_false_iff in Hn. destruct Hn as [Hn1 Hn2].
    now rewrite F2, F1.
  - apply IH in H. destruct H as (s1 & c1 & H & F1).
    eexists _, _. split; [exact H |]. intros n Hn. cbn [binds] in Hn.
    apply orb_false_iff in Hn. destruct Hn as [Hnm Hn].
    cbn [group]. rewrite Hnm. now apply F1.
  - destruct (exec r' s caps k) eqn:Hr.
    + inversion H; subst. apply IH in Hr. exact Hr.
    + eauto.
Qed.

Lemma exec_base_inv (k : cont (string * captures)) s rest caps :
  (forall s' c' rest' caps', k s' c' = Some (rest', caps') ->
     group 1 caps' = group 1 c' /\ group 2 caps' = group 2 c') ->
  exec pattern_base s [] k = Some (rest, caps) ->
  all_in Dot (group 1 caps) = true
  /\ group 2 caps <> EmptyString
  /\ all_in Lower (group 2 caps) = true.
Proof.
  intros Hk H. unfold pattern_base in H. rewrite exec_group_lazy in H.
  apply lazy_star_inv in H. destruct H as (pre & s1 & -> & Hpre & H).
  rewrite take_append in H. cbn [exec] in H.
  destruct (strip_prefix " is " s1) as [s2 |]; [| discriminate].
  destruct s2 as [| a t]; [discriminate |].
  destruct (in_class Lower a) eqn:Ha; [| discriminate].
  apply greedy_star_inv in H. destruct H as (wd & u & -> & Hwd & H).
  change (String a (wd ++ u)) with ((String a wd ++ u)%string) in H.
  rewrite take_append in H. apply Hk in H. destruct H as [H1 H2].
  cbn in H1, H2. rewrite H1, H2. repeat split; try assumption.
  - discriminate.
  - cbn [all_in]. now rewrite Ha.
Qed.

Lemma match_here_inv e s rest caps :
  match_here (pattern e) s = Some (rest, caps) ->
  all_in Dot (group 1 caps) = true
  /\ group 2 caps <> EmptyString
  /\ all_in Lower (group 2 caps) = true.
Proof.
  unfold match_here. destruct e; unfold pattern.
  - rewrite exec_Cat. apply exec_base_inv.
    intros s' c' rest' caps' H. apply exec_frame in H.
    destruct H as (s2 & c2 & H & F). inversion H; subst.
    split; apply F; reflexivity.
  - apply exec_base_inv. intros s' c' rest' caps' H. inversion H; subst. auto.
Qed.

Lemma scan_In p caps : forall s n,
  In caps (scan p n s) -> exists s' rest, match_here p s' = Some (rest, caps).
Proof.
  induction s as [| a s IH]; intros n H; cbn [scan] in H.
  - destruct n; [| contradiction].
    destruct (match_here p EmptyString) as [[rest c] |] eqn:Hm; [| contradiction].
    destruct H as [-> | []]. eauto.
  - destruct n; [| eauto].
    destruct (match_here p (String a s)) as [[rest c] |] eqn:Hm; [| eauto].
    destruct H as [-> | H]; eauto.
Qed.

Lemma stati_inv e out caps :
  In caps (stati e out) ->
  all_in Dot (group 1 caps) = true
  /\ group 2 caps <> EmptyString
  /\ all_in Lower (group 2 caps) = true.
Proof.
  intros H. apply scan_In in H. destruct H as (s' & rest & H).
  now apply match_here_inv in H.
Qed.

(** X14.  For every output, options and request: no reported host name
    holds a line break, and every [reachable] cell of a returned frame is
    NA, a boolean, or a non-empty word of lowercase letters that [replace]
    left as text. *)
Theorem X14_record_shape : forall w hosts kw df,
  outcome (check_hosts w hosts kw) = Ok df ->
  Forall (fun m => all_in Dot m = true) (reported w hosts kw)
  /\ Forall (fun r => reachable r = RNA
                      \/ (exists b, reachable r = RBool b)
                      \/ (exists t, reachable r = RText t
                                    /\ t <> EmptyString
                                    /\ all_in Lower t = true))
            (rows df).
Proof.
  intros w hosts kw df H. split.
  - unfold reported. apply Forall_forall. intros m Hm.
    apply in_map_iff in Hm. destruct Hm as (caps & <- & Hc).
    now apply stati_inv in Hc.
  - destruct (check_hosts_Ok_parts _ _ _ H) as (df0 & Hp & _ & Hrec & _).
    apply parse_frame_Ok in Hp. destruct Hp as (_ & _ & _ & Hre & _).
    assert (H0 : Forall (fun r => reachable r = RNA
                      \/ (exists b, reachable r = RBool b)
                      \/ (exists t, reachable r = RText t
                                    /\ t <> EmptyString
                                    /\ all_in Lower t = true)) (rows df0)).
    { apply Forall_forall. intros r Hr.
      apply (in_map reachable) in Hr. rewrite Hre in Hr.
      apply in_map_iff in Hr. destruct Hr as (caps & Heq & Hc).
      apply stati_inv in Hc. destruct Hc as (_ & Hne & Hlow).
      right. unfold replace_reachable in Heq.
      destruct (String.eqb (group 2 caps) "alive"); [left; eauto |].
      destruct (String.eqb (group 2 caps) "unreachable"); [left; eauto |].
      right. eauto. }
    rewrite reconcile_cases in Hrec.
    destruct (len hosts =? len_df df0)%Z; [now inversion Hrec; subst |].
    destruct (include_failed_dns kw); [| now inversion Hrec; subst].
    destruct (reverse_lookup kw); inversion Hrec; subst; [assumption |].
    simpl. apply Forall_app. split; [assumption |].
    apply Forall_forall. intros r Hr. apply in_map_iff in Hr.
    destruct Hr as (x & <- & _). now left.
Qed.

Lemma X14_record_shape_witness :
  let w := installed 0 ("a is alive" ++ nl ++ "x is foo" ++ nl)%string 7 in
  exists df, outcome (check_hosts w ["a"; "x"; "y"]
                        (with_include_failed_dns true check_hosts_defaults))
             = Ok df
    /\ map reachable (rows df) = [RBool true; RText "foo"; RNA]
    /\ Forall (fun m => all_in Dot m = true)
              (reported w ["a"; "x"; "y"]
                 (with_include_failed_dns true check_hosts_defaults)).
Proof.
  intros w. eexists. split; [vm_compute; reflexivity |].
  split; [reflexivity |].
  exact (proj1 (@X14_record_shape w ["a"; "x"; "y"]
                  (with_include_failed_dns true check_hosts_defaults) _ eq_refl)).
Defined.

(* ================================================================== *)
(** ** Latencies *)

Lemma span_digits_spec s : forall d r,
  span_digits s = (d, r) -> s = (d ++ r)%string /\ all_in Digit d = true.
Proof.
  induction s as [| a s IH]; intros d r H; cbn [span_digits] in H.
  - inversion H; subst. auto.
  - destruct (is_digit a) eqn:Ha.
    + destruct (span_digits s) as [d' r'] eqn:Hs. inversion H; subst.
      destruct (IH _ _ eq_refl) as [-> Hd]. simpl. rewrite Ha. auto.
    + inversion H; subst. auto.
Qed.

Lemma digits_value_nonneg s : forall acc,
  all_in Digit s = true -> 0 <= acc -> 0 <= digits_value acc s.
Proof.
  induction s as [| a s IH]; intros acc Hs Hacc; [assumption |].
  simpl in Hs. apply andb_true_iff in Hs. destruct Hs as [Ha Hs].
  cbn [digits_value]. apply IH; [assumption |].
  unfold is_digit in Ha. apply andb_true_iff in Ha. destruct Ha as [Ha _].
  apply Nat.leb_le in Ha. lia.
Qed.

Lemma float_of_nonneg tok q : float_of tok = Some q -> (0 <= q)%Q.
Proof.
  unfold float_of. destruct (span_digits tok) as [d1 rest] eqn:H1.
  apply span_digits_spec in H1. destruct H1 as [_ Hd1].
  assert (Hv1 : 0 <= digits_value 0 d1) by (apply digits_value_nonneg; [auto | lia]).
  assert (Hq : forall z p, 0 <= z -> (0 <= z # p)%Q)
    by (intros z p Hz; unfold Qle; simpl; lia).
  destruct d1 as [| a1 d1']; [discriminate |].
  destruct rest as [| c d2]; [intros H; inversion H; now apply Hq |].
  destruct (span_digits d2) as [d2' tail] eqn:H2.
  apply span_digits_spec in H2. destruct H2 as [-> Hd2].
  destruct d2' as [| a2 d2'']; [discriminate |].
  destruct tail; [| discriminate].
  assert (Hd2' : all_in Digit (String a2 d2'' ++ "") = true).
  { clear - Hd2. induction (String a2 d2'') as [| x s IH]; simpl in *; [reflexivity |].
    apply andb_true_iff in Hd2. destruct Hd2 as [Hx Hs]. rewrite Hx. auto. }
  assert (Hv2 : 0 <= digits_value 0 (String a2 d2'' ++ ""))
    by (apply digits_value_nonneg; [auto | lia]).
  assert (Hv12 : 0 <= digits_value (digits_value 0 (String a1 d1'))
                         (String a2 d2'' ++ ""))
    by (apply digits_value_nonneg; auto).
  destruct (Ascii.eqb c "."); [intros H; inversion H; now apply Hq |].
  destruct (Ascii.eqb c "e" || Ascii.eqb c "E").
  - intros H. inversion H. apply Hq.
    apply Z.mul_nonneg_nonneg; [assumption |]. now apply Z.pow_nonneg.
  - destruct (Ascii.eqb c "_"); [| discriminate].
    intros H. inversion H. now apply Hq.
Qed.

Lemma mapM_ping_cell_nonneg toks ws ps :
  mapM ping_cell toks = (ws, Ok ps) ->
  Forall (fun l => l = LNaN \/ exists q, l = LVal q /\ (0 <= q)%Q) ps.
Proof.
  revert ws ps. induction toks as [| t toks IH]; simpl; intros ws ps H.
  - inversion H. constructor.
  - apply bind_Ok_inv in H. destruct H as (ws1 & p & ws2 & Hp & H & ->).
    apply bind_Ok_inv in H. destruct H as (ws3 & ps' & ws4 & Hps & H & ->).
    inversion H; subst. constructor; [| eauto].
    unfold ping_cell in Hp. destruct t; [inversion Hp; auto |].
    destruct (float_of _) eqn:Hf; inversion Hp; subst.
    right. eexists. split; [reflexivity |]. now apply float_of_nonneg in Hf.
Qed.

Lemma parse_frame_ping e now out ws df :
  parse_frame e now out = (ws, Ok df) ->
  Forall (fun r => ping r = LNaN
                   \/ (e = true /\ exists q, ping r = LVal q /\ (0 <= q)%Q))
         (rows df).
Proof.
  unfold parse_frame. destruct e.
  - intros H. apply bind_Ok_inv in H. destruct H as (ws1 & ps & ws2 & Hps & H & ->).
    inversion H; subst; clear H. apply mapM_ping_cell_nonneg in Hps.
    cbn [rows]. generalize (map (row_of now) (stati true out)). intros rs.
    revert rs. induction Hps as [| p ps Hp _ IH]; intros [| r rs]; simpl;
      constructor; auto.
    simpl. destruct Hp as [-> | Hq]; auto.
  - intros H. inversion H; subst. cbn [rows]. apply Forall_forall.
    intros r Hr. apply in_map_iff in Hr. destruct Hr as (c & <- & _). now left.
Qed.

(** X15.  A returned frame has the [ping] column exactly when
    [add_elapsed] was set; every latency in it is NaN or a number that is
    not negative, and without [add_elapsed] there is no number at all. *)
Theorem X15_latency_domain : forall w hosts kw df,
  outcome (check_hosts w hosts kw) = Ok df ->
  has_ping df = add_elapsed kw
  /\ Forall (fun r => ping r = LNaN
                      \/ (add_elapsed kw = true
                          /\ exists q, ping r = LVal q /\ (0 <= q)%Q))
            (rows df).
Proof.
  intros w hosts kw df H.
  destruct (check_hosts_Ok_parts _ _ _ H) as (df0 & Hp & _ & Hrec & _).
  pose proof (parse_frame_ping _ _ _ Hp) as Hping.
  apply parse_frame_Ok in Hp. destruct Hp as (_ & Hhas & _).
  rewrite reconcile_cases in Hrec.
  destruct (len hosts =? len_df df0)%Z; [inversion Hrec; subst; auto |].
  destruct (include_failed_dns kw); [| inversion Hrec; subst; auto].
  destruct (reverse_lookup kw); inversion Hrec; subst; [auto |].
  split; [assumption |]. simpl. apply Forall_app. split; [assumption |].
  apply Forall_forall. intros r Hr. apply in_map_iff in Hr.
  destruct Hr as (x & <- & _). now left.
Qed.

Lemma X15_latency_domain_witness :
  let w := installed 0 ("a is alive (0.05 ms)" ++ nl ++ "b is unreachable" ++ nl)%string
             7 in
  let kw := mkKw (Some 50) false true true true in
  exists df, outcome (check_hosts w ["a"; "b"; "c"] kw) = Ok df
    /\ map ping (rows df) = [LVal (5 # 100); LNaN; LNaN]
    /\ has_ping df = true.
Proof.
  intros w kw. eexists. split; [vm_compute; reflexivity |].
  split; [reflexivity |].
  exact (proj1 (@X15_latency_domain w ["a"; "b"; "c"] kw _ eq_refl)).
Defined.

(* ================================================================== *)
(** ** Writing to the store *)

Lemma df_sqlite_In df hosts_db e :
  In e (df_sqlite df hosts_db) ->
  exists r h, In r (rows df) /\ In h hosts_db /\ hostname h = machine r
    /\ e = {| timestamp := ts r;
              host_id := id h;
              online := online_of (reachable r);
              latency_ms := if has_ping df then latency_of (ping r) else SNull |}.
Proof.
  unfold df_sqlite, join_row. rewrite in_flat_map.
  intros (r & Hr & He). apply in_map_iff in He.
  destruct He as (h & <- & Hh). apply filter_In in Hh.
  destruct Hh as [Hh Heq]. apply String.eqb_eq in Heq. exists r, h. auto.
Qed.

Lemma store_entry_joined df hosts_db e :
  In e (df_sqlite df hosts_db) -> store_entry e = e.
Proof.
  intros H. apply df_sqlite_In in H. destruct H as (r & h & _ & _ & _ & ->).
  unfold store_entry. simpl. destruct (reachable r) as [[] | |]; reflexivity.
Qed.



Lemma store_entry_map df hosts_db :
  map store_entry (df_sqlite df hosts_db) = df_sqlite df hosts_db.
Proof.
  rewrite <- (map_id (df_sqlite df hosts_db)) at 2. apply map_ext_in.
  intros e He. now apply store_entry_joined in He.
Qed.

(** The append on a table made from [ts_schema], whether the program just
    created it or found it. *)
Lemma store_from_ts_schema db df :
  from_ts_schema db ->
  store db df
  = if forallb (ts_schema (db_id_is_key db) (db_hosts db))
         (df_sqlite df (db_hosts db))
    then Some {| db_hosts := db_hosts db;
                 db_id_is_key := db_id_is_key db;
                 db_ts := Some {| admits := ts_schema (db_id_is_key db);
                                  stored := store_entry;
                                  ts_rows := stored_rows db
                                             ++ df_sqlite df (db_hosts db) |} |}
    else None.
Proof.
  intros [Hnone | (held & Hsome)]; unfold store, stored_rows, to_sql;
    [rewrite Hnone | rewrite Hsome]; cbn [create_ts admits stored ts_rows];
    rewrite store_entry_map; destruct (forallb _ _); reflexivity.
Qed.




Lemma filter_hostname_none (hosts_db : list host_record) x :
  ~ In x (map hostname hosts_db) ->
  filter (fun h => String.eqb (hostname h) x) hosts_db = [].
Proof.
  induction hosts_db as [| h l IH]; simpl; [reflexivity |]. intros Hn.
  destruct (String.eqb_spec (hostname h) x) as [Heq | _]; [tauto |].
  apply IH. tauto.
Qed.

Lemma filter_hostname_unique (hosts_db : list host_record) x :
  NoDup (map hostname hosts_db) ->
  In x (map hostname hosts_db) ->
  exists h, filter (fun h => String.eqb (hostname h) x) hosts_db = [h]
            /\ hostname h = x /\ In h hosts_db.
Proof.
  induction hosts_db as [| h l IH]; simpl; [tauto |]. intros Hnd Hin.
  inversion Hnd as [| ? ? Hnotin Hnd']; subst.
  destruct (String.eqb_spec (hostname h) x) as [Heq | Hne].
  - exists h. subst x. rewrite filter_hostname_none by assumption. auto.
  - destruct Hin as [Heq | Hin]; [contradiction |].
    destruct (IH Hnd' Hin) as (h' & Hf & Hh & Hl). exists h'. auto.
Qed.

Lemma join_one_to_one : forall df hosts_db,
  NoDup (map hostname hosts_db) ->
  incl (index df) (map hostname hosts_db) ->
  Forall2 (fun r e =>
             timestamp e = ts r
             /\ online e = online_of (reachable r)
             /\ latency_ms e = (if has_ping df then latency_of (ping r)
                                else SNull)
             /\ In (mkHost (host_id e) (machine r)) hosts_db)
          (rows df) (df_sqlite df hosts_db).
Proof.
  intros [hp rs] hosts_db Hnd. unfold index, df_sqlite. cbn [rows has_ping].
  induction rs as [| r rs IH]; intros Hincl; cbn [flat_map map]; [constructor |].
  assert (Hr : In (machine r) (map hostname hosts_db))
    by (apply Hincl; simpl; auto).
  destruct (@filter_hostname_unique hosts_db (machine r) Hnd Hr)
    as (h & Hf & Hh & Hl).
  unfold join_row at 1. rewrite Hf. cbn [map app]. constructor.
  - cbn. repeat split. rewrite <- Hh. now destruct h.
  - apply IH. intros x Hx. apply Hincl. simpl. auto.
Qed.

(** X17.  When the host names of the [hosts] table are pairwise distinct
    and every row of the frame has its name in the table, the rows handed
    to the store correspond one to one, in order, to the rows of the
    frame: same timestamp, [online] and latency translated, and the id of
    the table row with that name. *)
Theorem X17_one_row_per_result : forall df hosts_db,
  NoDup (map hostname hosts_db) ->
  incl (index df) (map hostname hosts_db) ->
  Forall2 (fun r e =>
             timestamp e = ts r
             /\ online e = online_of (reachable r)
             /\ latency_ms e = (if has_ping df then latency_of (ping r)
                                else SNull)
             /\ In (mkHost (host_id e) (machine r)) hosts_db)
          (rows df) (df_sqlite df hosts_db).
Proof. exact join_one_to_one. Qed.

Lemma X17_one_row_per_result_witness :
  let hosts_db := [mkHost 10 "a"; mkHost 20 "b"] in
  let df := mkDF false [mkRow "b" (RBool true) 7 LNaN; mkRow "a" RNA 7 LNaN] in
  df_sqlite df hosts_db = [mkEntry 7 20 (SInt 1) SNull; mkEntry 7 10 SNull SNull]
  /\ List.length (df_sqlite df hosts_db) = List.length (rows df).
Proof.
  intros hosts_db df. split; [reflexivity |].
  assert (Hnd : NoDup (map hostname hosts_db))
    by (repeat constructor; simpl; intuition discriminate).
  assert (Hincl : incl (index df) (map hostname hosts_db))
    by (intros x Hx; simpl in *; tauto).
  symmetry. exact (Forall2_length (@X17_one_row_per_result df hosts_db Hnd Hincl)).
Defined.

(* ================================================================== *)
(** ** The database file, the handlers, the command line *)

Lemma take_prefix p : forall s,
  take (String.length p) s = p <-> exists rest, s = (p ++ rest)%string.
Proof.
  induction p as [| a p IH]; intros s; cbn [String.length].
  - split; [intros _; exists s; reflexivity |]. intros _. destruct s; reflexivity.
  - destruct s as [| b s]; cbn [take].
    + split; [discriminate | intros (rest & H); discriminate].
    + split.
      * intros H. injection H as -> H. apply IH in H. destruct H as (rest & ->).
        exists rest. reflexivity.
      * intros (rest & H). simpl in H. injection H as -> ->.
        f_equal. apply IH. eauto.
Qed.

(** X18.  The file is taken for an SQLite database exactly when it begins
    with the sixteen bytes [SQLite format 3] and a zero byte; a shorter
    file is refused. *)
Theorem X18_sqlite_header : forall content,
  valid_sqlite_header content = true
  <-> exists rest, content = (sqlite_magic ++ rest)%string.
Proof.
  intros content. unfold valid_sqlite_header. rewrite String.eqb_eq.
  change 16%nat with (String.length sqlite_magic). apply take_prefix.
Qed.

Lemma main_probe_raise w hosts args e :
  outcome (check_hosts w hosts (main_kwargs args)) = Raise e ->
  main_probe w hosts args
  = match e with
    | FPingException exit_code message =>
        Exit 1
          ([("[red b]ERROR[/]: fping returned with: " ++ message)%string]
           ++ (if (exit_code =? 4)%Z then [permission_hint] else []))
    | FPingNotFound =>
        Exit 1
          ["[red b]ERROR[/]: fping was not found. Please install it first and make sure it is executable and in $PATH."]
    | _ => Uncaught e
    end.
Proof.
  intros H. unfold main_probe, main_check. rewrite H. destruct e; reflexivity.
Qed.

(** X19.  When the probe ends with status 3 or 4 the main block prints
    the cause and exits with 1, whatever was printed by [fping] and
    whatever the options; the hint about permissions follows for status 4
    only. *)
Theorem X19_hard_failure_exits : forall out now hosts args,
  main_probe (installed 3 out now) hosts args
  = Exit 1 ["[red b]ERROR[/]: fping returned with: invalid command line arguments"]
  /\ main_probe (installed 4 out now) hosts args
     = Exit 1 ["[red b]ERROR[/]: fping returned with: system call failure";
               permission_hint].
Proof.
  intros out now hosts args. split.
  - rewrite main_probe_raise
      with (e := FPingException 3 "invalid command line arguments");
      [reflexivity |].
    rewrite check_hosts_cases, installed_which, installed_probe. reflexivity.
  - rewrite main_probe_raise with (e := FPingException 4 "system call failure");
      [reflexivity |].
    rewrite check_hosts_cases, installed_which, installed_probe. reflexivity.
Qed.

(** X20.  From status 5 on neither handler of the main block applies: the
    [KeyError] raised while building the exception leaves the program
    uncaught, without any of the error lines. *)
Theorem X20_unlisted_status_uncaught : forall rc out now hosts args,
  5 <= rc ->
  main_probe (installed rc out now) hosts args = Uncaught (KeyError rc).
Proof.
  intros rc out now hosts args H.
  rewrite main_probe_raise with (e := KeyError rc); [reflexivity |].
  rewrite check_hosts_cases, installed_which, installed_probe.
  simpl returncode. rewrite check_status_unlisted by assumption. reflexivity.
Qed.

Lemma X20_unlisted_status_uncaught_witness :
  main_probe (installed 5 "" 0) ["a"] no_options = Uncaught (KeyError 5).
Proof.
  apply (@X20_unlisted_status_uncaught 5 "" 0 ["a"] no_options). lia.
Defined.

(** X21.  The probe is started as [fping], then the options, then the
    hosts as given; [-d], [-e] and [--ipv4] are among the options exactly
    when [reverse_lookup], [add_elapsed] and [ipv4_only] are set, and
    [include_failed_dns] has no influence on the command. *)
Theorem X21_command_line : forall kw hosts,
  exists opts,
    (build_cmd kw ++ hosts = "fping" :: opts ++ hosts)%list
    /\ (In "-d" opts <-> reverse_lookup kw = true)
    /\ (In "-e" opts <-> add_elapsed kw = true)
    /\ (In "--ipv4" opts <-> ipv4_only kw = true)
    /\ forall b, build_cmd (with_include_failed_dns b kw) = build_cmd kw.
Proof.
  intros kw hosts. exists (tl (build_cmd kw)).
  destruct kw as [[t |] r e i k]; destruct r, e, i;
    (split; [reflexivity |]); simpl;
    repeat split; intros;
    repeat match goal with
           | H : _ \/ _ |- _ => destruct H
           | H : False |- _ => destruct H
           end;
    try discriminate; auto 10.
Qed.

(* ================================================================== *)
(** ** One run in SQLite mode *)




(* ================================================================== *)
(** ** The latency field *)

Lemma exec_plus A c a wd tail caps (k : cont A) r :
  in_class c a = true ->
  all_in c wd = true ->
  match tail with
  | String b _ => in_class c b = false
  | EmptyString => True
  end ->
  k tail caps = Some r ->
  exec (PlusGreedy c) (String a wd ++ tail) caps k = Some r.
Proof.
  intros Ha Hwd Htail Hk.
  change ((String a wd ++ tail)%string) with (String a (wd ++ tail)).
  cbn [exec]. rewrite Ha. now apply greedy_star_word.
Qed.

Lemma exec_One A c r a s caps (k : cont A) :
  in_class c a = true ->
  exec (Cat (One c) r) (String a s) caps k = exec r s caps k.
Proof. intros H. cbn [exec]. now rewrite H. Qed.

Lemma exec_Group A n r s caps (k : cont A) :
  exec (Group n r) s caps k
  = exec r s caps
      (fun s' caps' =>
         k s' ((n, take (String.length s - String.length s') s) :: caps')).
Proof. reflexivity. Qed.

Lemma exec_Opt_Some A r s caps (k : cont A) x :
  exec r s caps k = Some x -> exec (Opt r) s caps k = Some x.
Proof. intros H. cbn [exec]. now rewrite H. Qed.

(** [\d+.\d+] on digits, one character that is no digit and no line
    break, and digits. *)
Lemma exec_number A a1 d1 c a2 d2 tail caps (k : cont A) r :
  is_digit a1 = true -> all_in Digit d1 = true ->
  is_digit c = false -> in_class Dot c = true ->
  is_digit a2 = true -> all_in Digit d2 = true ->
  match tail with
  | String b _ => is_digit b = false
  | EmptyString => True
  end ->
  k tail caps = Some r ->
  exec (Cat (PlusGreedy Digit) (Cat (One Dot) (PlusGreedy Digit)))
       ((String a1 d1 ++ String c (String a2 d2)) ++ tail) caps k
  = Some r.
Proof.
  intros H1 Hd1 Hc Hdot H2 Hd2 Htail Hk.
  rewrite append_assoc, exec_Cat.
  apply exec_plus; [assumption | assumption | exact Hc |].
  change ((String c (String a2 d2) ++ tail)%string)
    with (String c (String a2 d2 ++ tail)).
  rewrite exec_One by assumption. now apply exec_plus.
Qed.

Lemma stati_latency_line h a1 d1 c a2 d2 :
  hostlike h = true ->
  is_digit a1 = true -> all_in Digit d1 = true ->
  is_digit c = false -> in_class Dot c = true ->
  is_digit a2 = true -> all_in Digit d2 = true ->
  stati true (latency_line h (String a1 d1) c (String a2 d2))
  = [[(3%nat, (String a1 d1 ++ String c (String a2 d2))%string);
      (2%nat, "alive"); (1%nat, h)]].
Proof.
  intros Hh H1 Hd1 Hc Hdot H2 Hd2. unfold stati, findall, latency_line.
  set (tok := (String a1 d1 ++ String c (String a2 d2))%string).
  replace (h ++ " is alive (" ++ tok ++ " ms)" ++ nl)%string
    with ((h ++ " is alive (" ++ tok ++ " ms)") ++ nl)%string
    by (rewrite !append_assoc; reflexivity).
  rewrite scan_hit with (caps := [(3%nat, tok); (2%nat, "alive"); (1%nat, h)]).
  - reflexivity.
  - apply host_line_nonempty. discriminate.
  - replace ((h ++ " is alive (" ++ tok ++ " ms)") ++ nl)%string
      with (h ++ " is " ++ "alive" ++ " (" ++ tok ++ " ms)" ++ nl)%string
      by (rewrite !append_assoc; reflexivity).
    unfold match_here, pattern. rewrite exec_Cat. unfold pattern_base.
    apply exec_host_prefix; [assumption | |].
    + intros. now apply after_host_needs_blank.
    + rewrite exec_Lit with (s' := ("alive" ++ " (" ++ tok ++ " ms)" ++ nl)%string)
        by reflexivity.
      apply exec_word; [reflexivity | reflexivity | reflexivity |].
      unfold pattern_elapsed. apply exec_Opt_Some.
      rewrite exec_Lit with (s' := (tok ++ " ms)" ++ nl)%string) by reflexivity.
      rewrite exec_Cat, exec_Group. unfold tok.
      apply exec_number; try assumption; [reflexivity |].
      rewrite take_append. reflexivity.
Qed.

Lemma append_nil (s : string) : (s ++ "")%string = s.
Proof. induction s as [| a s IH]; simpl; [reflexivity | now rewrite IH]. Qed.

Lemma span_digits_app d rest :
  all_in Digit d = true ->
  match rest with
  | String b _ => is_digit b = false
  | EmptyString => True
  end ->
  span_digits (d ++ rest) = (d, rest).
Proof.
  intros Hd Hrest. induction d as [| a d IH].
  - destruct rest as [| b t]; [reflexivity |]. simpl. now rewrite Hrest.
  - simpl in Hd. apply andb_true_iff in Hd. destruct Hd as [Ha Hd].
    cbn [append span_digits]. unfold in_class in Ha. now rewrite Ha, (IH Hd).
Qed.

Lemma float_of_token a1 d1 c a2 d2 :
  is_digit a1 = true -> all_in Digit d1 = true ->
  is_digit c = false ->
  is_digit a2 = true -> all_in Digit d2 = true ->
  float_of (String a1 d1 ++ String c (String a2 d2))
  = if Ascii.eqb c "."%char then Some (decimal (String a1 d1) (String a2 d2))
    else if Ascii.eqb c "e"%char || Ascii.eqb c "E"%char
         then Some (digits_value 0 (String a1 d1)
                    * 10 ^ digits_value 0 (String a2 d2) # 1)
         else if Ascii.eqb c "_"%char
              then Some (digits_value (digits_value 0 (String a1 d1))
                           (String a2 d2) # 1)
              else None.
Proof.
  intros H1 Hd1 Hc H2 Hd2. unfold float_of.
  rewrite span_digits_app;
    [| cbn [all_in in_class]; now rewrite H1 | exact Hc].
  rewrite <- (append_nil (String a2 d2)) at 1.
  rewrite span_digits_app;
    [| cbn [all_in in_class]; now rewrite H2 | exact I].
  reflexivity.
Qed.

Lemma check_hosts_single_raise out now h kw e :
  parse_frame (add_elapsed kw) now out = raise e ->
  check_hosts (installed 0 out now) [h] kw = raise e.
Proof.
  intros Hp. rewrite check_hosts_cases, installed_which. unfold probe_stdout.
  rewrite installed_probe. simpl negb. cbv iota. simpl returncode.
  simpl stdout. simpl clock. rewrite Hp. reflexivity.
Qed.

(** X23.  With latency capture on, for a host name without blanks and a
    latency written as digits, a point and digits, where the number so
    written is one that binary64 holds exactly (so that the conversion to
    float does not round), the line
    [<host> is alive (<digits>.<digits> ms)] gives one row whose latency is
    that number. *)
Theorem X23_decimal_latency : forall h int_part frac_part now t r i k,
  hostlike h = true ->
  int_part <> EmptyString -> all_in Digit int_part = true ->
  frac_part <> EmptyString -> all_in Digit frac_part = true ->
  binary64_exact (decimal int_part frac_part) = true ->
  check_hosts (installed 0 (latency_line h int_part "." frac_part) now) [h]
    (mkKw t r true i k)
  = ret (mkDF true [mkRow h (RBool true) now
                      (LVal (decimal int_part frac_part))]).
Proof.
  intros h [| a1 d1] [| a2 d2] now t r i k Hh Hn1 H1 Hn2 H2 _;
    try contradiction.
  cbn [all_in in_class] in H1, H2.
  apply andb_true_iff in H1. destruct H1 as [Ha1 Hd1].
  apply andb_true_iff in H2. destruct H2 as [Ha2 Hd2].
  apply check_hosts_single; [| reflexivity].
  unfold parse_frame. simpl add_elapsed.
  rewrite stati_latency_line by (auto; reflexivity).
  cbn [map mapM group Nat.eqb]. unfold ping_cell at 1. cbn [append].
  change (String a1 (d1 ++ String "." (String a2 d2)))
    with ((String a1 d1 ++ String "." (String a2 d2))%string).
  rewrite float_of_token by (auto; reflexivity).
  reflexivity.
Qed.

Lemma X23_decimal_latency_witness :
  binary64_exact (decimal "0" "75") = true
  /\ binary64_exact (decimal "12" "3") = false
  /\ outcome (check_hosts
             (installed 0 ("gw is alive (0.75 ms)" ++ nl)%string 7) ["gw"]
             (mkKw (Some 50) false true true false))
     = Ok (mkDF true [mkRow "gw" (RBool true) 7 (LVal (75 # 100))]).
Proof.
  split; [reflexivity |]. split; [reflexivity |].
  assert (H : check_hosts (installed 0 (latency_line "gw" "0" "." "75") 7) ["gw"]
                (mkKw (Some 50) false true true false)
              = ret (mkDF true [mkRow "gw" (RBool true) 7
                                  (LVal (decimal "0" "75"))])).
  { apply (@X23_decimal_latency "gw" "0" "75" 7 (Some 50) false true false);
      (reflexivity || discriminate). }
  change (latency_line "gw" "0" "." "75")
    with (("gw is alive (0.75 ms)" ++ nl)%string) in H.
  rewrite H. reflexivity.
Defined.

(** X24.  The point of the latency pattern is not escaped: with latency
    capture on, a latency written with any other separator that is no
    digit, no line break, no exponent mark and no underscore (a comma,
    say) still matches, and the conversion to a number then fails: the
    call ends in a [ValueError] and returns no frame. *)
Theorem X24_other_separator_raises : forall h int_part sep frac_part now t r i k,
  hostlike h = true ->
  int_part <> EmptyString -> all_in Digit int_part = true ->
  frac_part <> EmptyString -> all_in Digit frac_part = true ->
  is_digit sep = false -> sep <> newline ->
  sep <> "."%char -> sep <> "e"%char -> sep <> "E"%char -> sep <> "_"%char ->
  check_hosts (installed 0 (latency_line h int_part sep frac_part) now) [h]
    (mkKw t r true i k)
  = raise (ValueError (int_part ++ String sep frac_part)).
Proof.
  intros h [| a1 d1] sep [| a2 d2] now t r i k Hh Hn1 H1 Hn2 H2 Hsd Hnl
    Hp He HE Hu; try contradiction.
  cbn [all_in in_class] in H1, H2.
  apply andb_true_iff in H1. destruct H1 as [Ha1 Hd1].
  apply andb_true_iff in H2. destruct H2 as [Ha2 Hd2].
  assert (Hdot : in_class Dot sep = true)
    by (cbn [in_class]; apply negb_true_iff; now apply Ascii.eqb_neq).
  apply check_hosts_single_raise.
  unfold parse_frame. simpl add_elapsed.
  rewrite stati_latency_line by assumption.
  cbn [map mapM group Nat.eqb]. unfold ping_cell at 1. cbn [append].
  change (String a1 (d1 ++ String sep (String a2 d2)))
    with ((String a1 d1 ++ String sep (String a2 d2))%string).
  rewrite float_of_token by assumption.
  apply Ascii.eqb_neq in Hp, He, HE, Hu. rewrite Hp, He, HE, Hu. reflexivity.
Qed.

Lemma X24_other_separator_raises_witness :
  check_hosts (installed 0 ("gw is alive (0,75 ms)" ++ nl)%string 7) ["gw"]
    (mkKw (Some 50) false true true false)
  = ([], Raise (ValueError "0,75")).
Proof.
  assert (H : check_hosts (installed 0 (latency_line "gw" "0" "," "75") 7) ["gw"]
                (mkKw (Some 50) false true true false)
              = raise (ValueError ("0" ++ String "," "75"))).
  { apply (@X24_other_separator_raises "gw" "0" "," "75" 7 (Some 50) false true
             false); (reflexivity || discriminate). }
  exact H.
Defined.

(* ================================================================== *)
(** ** What is at rest in [ts] *)

Lemma df_sqlite_intro df hosts_db r h :
  In r (rows df) -> In h hosts_db -> hostname h = machine r ->
  In {| timestamp := ts r;
        host_id := id h;
        online := online_of (reachable r);
        latency_ms := if has_ping df then latency_of (ping r) else SNull |}
     (df_sqlite df hosts_db).
Proof.
  intros Hr Hh Heq. unfold df_sqlite, join_row. apply in_flat_map.
  exists r. split; [assumption |]. apply in_map_iff. exists h.
  split; [reflexivity |]. apply filter_In. split; [assumption |].
  now apply String.eqb_eq.
Qed.

(** C8, as the code has it.  The program creates [ts] from [ts_schema]
    only when the file has none.  On a file without [ts], or whose [ts]
    was created from [ts_schema], with [online] so far 0, 1 or NULL, an
    append that goes through leaves only 0, 1 and NULL at rest: the rows
    added are those of the known hosts, each result of a known host has a
    boolean or unknown reachability, and it is stored as 1 for true, 0 for
    false and NULL for unknown.  A result of a known host with any other
    reachability makes the append fail. *)
Theorem C8_online_at_rest : forall db df db',
  from_ts_schema db ->
  Forall (fun e => online_domain (online e)) (stored_rows db) ->
  store db df = Some db' ->
  Forall (fun e => online_domain (online e)) (stored_rows db')
  /\ stored_rows db' = stored_rows db ++ df_sqlite df (db_hosts db)
  /\ forall r h,
       In r (rows df) -> In h (db_hosts db) -> hostname h = machine r ->
       let lat := if has_ping df then latency_of (ping r) else SNull in
       (reachable r = RBool true
        /\ In (mkEntry (ts r) (id h) (SInt 1) lat) (stored_rows db'))
       \/ (reachable r = RBool false
           /\ In (mkEntry (ts r) (id h) (SInt 0) lat) (stored_rows db'))
       \/ (reachable r = RNA
           /\ In (mkEntry (ts r) (id h) SNull lat) (stored_rows db')).
Proof.
  intros db df db' Hdb Hold Hs. rewrite (store_from_ts_schema df Hdb) in Hs.
  destruct (forallb _ _) eqn:Hall; [| discriminate].
  inversion Hs; subst; clear Hs. cbn [stored_rows db_ts ts_rows].
  rewrite forallb_forall in Hall.
  assert (Hnew : forall e, In e (df_sqlite df (db_hosts db)) ->
                           check_online (online e) = true).
  { intros e He. apply Hall in He. unfold ts_schema in He.
    apply andb_true_iff in He. tauto. }
  split; [| split; [reflexivity |]].
  - apply Forall_app. split; [exact Hold |].
    apply Forall_forall. intros e He. apply check_online_domain. now apply Hnew.
  - intros r h Hr Hh Heq. cbv zeta.
    pose proof (df_sqlite_intro df _ _ _ Hr Hh Heq) as Hin.
    pose proof (Hnew _ Hin) as Hc. cbn [online] in Hc.
    destruct (reachable r) as [[] | s |]; cbn in Hc, Hin; try discriminate.
    + left. split; [reflexivity |]. apply in_or_app. now right.
    + right. left. split; [reflexivity |]. apply in_or_app. now right.
    + right. right. split; [reflexivity |]. apply in_or_app. now right.
Qed.

Lemma C8_online_at_rest_witness :
  let db := mkDb [mkHost 1 "a"; mkHost 2 "b"; mkHost 3 "c"] true None in
  let df := mkDF false [mkRow "a" (RBool true) 1700000000 LNaN;
                        mkRow "b" (RBool false) 1700000000 LNaN;
                        mkRow "c" RNA 1700000000 LNaN;
                        mkRow "d" (RBool true) 1700000000 LNaN] in
  exists db', store db df = Some db'
              /\ map online (stored_rows db') = [SInt 1; SInt 0; SNull]
              /\ Forall (fun e => online_domain (online e)) (stored_rows db').
Proof.
  intros db df. eexists. split; [reflexivity |]. split; [reflexivity |].
  assert (Hdb : from_ts_schema db) by (left; reflexivity).
  exact (proj1 (@C8_online_at_rest db df _ Hdb (Forall_nil _) eq_refl)).
Defined.

(** C8 as the claim words it fails.  On a file that already holds a table
    [ts] declared without the check, the program adds none, and the text
    of an unexpected reachability word is stored as it is. *)
Lemma C8_counterexample :
  ~ spec_online_at_rest
      (mkDb [mkHost 1 "x"] true (Some (unconstrained_ts [])))
      (mkDF false [mkRow "x" (RText "foo") 0 LNaN]).
Proof.
  intros H. unfold spec_online_at_rest in H.
  specialize (H (Forall_nil _) _ eq_refl). cbn in H.
  inversion H as [| e l Hd _]. destruct Hd as [Hd | [Hd | Hd]]; discriminate.
Qed.

(** On the table the program creates, the same frame is refused. *)
Lemma store_rejects_text :
  store (mkDb [mkHost 1 "x"] true None)
        (mkDF false [mkRow "x" (RText "foo") 0 LNaN]) = None.
Proof. reflexivity. Qed.

(** When [hosts.id] is no key, the table the program creates refuses
    every row. *)
Lemma store_foreign_key_mismatch :
  store (mkDb [mkHost 1 "x"] false None)
        (mkDF false [mkRow "x" (RBool true) 0 LNaN]) = None.
Proof. reflexivity. Qed.
